(** * A book catalogue kept in a JSON file (main.py)

    [Book] is one catalogue record, [Library] the list of records together
    with the file [data.json] it is written to after every change.  The
    development embeds both classes as Rocq functions and proves what the
    specification says about them. *)

From Stdlib Require Import ZArith List String Ascii Bool Lia DecimalString.
From Stdlib Require Import Sorted.
Import ListNotations.

#[local] Set Warnings "-register-all".

Local Open Scope string_scope.
Local Open Scope list_scope.
Local Open Scope Z_scope.

(** ** The fragment of Python the program runs on *)

Module Py.

(** The exceptions the catalogue code can meet. *)
Inductive exn : Type :=
| TypeError
| KeyError (key : string)
| ValueError.

(** Outcome of a call: a value, a raised exception, or [Untyped] when a value
    would have to be stored in a [Book] field against the annotation of
    [Book.__init__] (Python stores it all the same; the typed record below
    cannot, and the model stops there). *)
Inductive result (A : Type) : Type :=
| Ok (a : A)
| Raise (e : exn)
| Untyped.

Arguments Ok {A} a.
Arguments Raise {A} e.
Arguments Untyped {A}.

Definition bind {A B : Type} (c : result A) (k : A -> result B) : result B :=
  match c with
  | Ok a => k a
  | Raise e => Raise e
  | Untyped => Untyped
  end.

(** Instances of [int].  [bool] is a subclass of [int], so [True] and
    [False] pass [isinstance(x, int)], compare and add as 1 and 0, and only
    print differently. *)
Inductive pyint : Type :=
| PInt (z : Z)
| PBool (b : bool).

Definition int_val (i : pyint) : Z :=
  match i with
  | PInt z => z
  | PBool true => 1
  | PBool false => 0
  end.

(** [a == b], [a > b] and [a + b] on instances of [int]. *)
Definition int_eqb (a b : pyint) : bool := int_val a =? int_val b.
Definition int_gtb (a b : pyint) : bool := int_val b <? int_val a.
Definition int_add (a b : pyint) : pyint := PInt (int_val a + int_val b).

(** [str(i)]. *)
Definition str (i : pyint) : string :=
  match i with
  | PInt z => NilZero.string_of_int (Z.to_int z)
  | PBool true => "True"
  | PBool false => "False"
  end.

(** [max(l, default=d)]: the first of the greatest elements, [d] on an empty
    list.  The running maximum is replaced only by a strictly greater item. *)
Fixpoint max_from (maxval : pyint) (l : list pyint) : pyint :=
  match l with
  | [] => maxval
  | item :: l' => max_from (if int_gtb item maxval then item else maxval) l'
  end.

Definition max (l : list pyint) (default : pyint) : pyint :=
  match l with
  | [] => default
  | item :: l' => max_from item l'
  end.

(** Strings are Python [str] values held as their UTF-8 encoding, so the
    literals of main.py can be written as they are.  [sub in s]: *)
Fixpoint str_in (sub s : string) : bool :=
  prefix sub s ||
  match s with
  | EmptyString => false
  | String _ s' => str_in sub s'
  end.

(** Iterating a [str] yields its characters; in UTF-8 a character is a lead
    byte followed by its continuation bytes (0x80..0xBF). *)
Definition is_continuation (a : ascii) : bool :=
  let n := nat_of_ascii a in (128 <=? n)%nat && (n <? 192)%nat.

Fixpoint chars (s : string) : list string :=
  match s with
  | EmptyString => []
  | String a s' =>
      match s' with
      | String b _ =>
          if is_continuation b then
            match chars s' with
            | c :: cs => String a c :: cs
            | [] => [String a EmptyString]
            end
          else String a EmptyString :: chars s'
      | EmptyString => [String a EmptyString]
      end
  end.

(** What [json.load] returns: [None], [bool], [int], [float], [str], [list]
    and [dict] with string keys.  A dict is the list of its items in
    insertion order.  A float is kept as the literal it was read from: the
    program only ever asks whether a value is an [int] or a [str]. *)
Inductive json : Type :=
| JNull
| JBool (b : bool)
| JInt (z : Z)
| JFloat (literal : string)
| JStr (s : string)
| JList (l : list json)
| JDict (items : list (string * json)).

Definition of_int (i : pyint) : json :=
  match i with
  | PInt z => JInt z
  | PBool b => JBool b
  end.

(** The classes named in [required_fields]. *)
Inductive pytype : Type := IntT | StrT.

Definition isinstance (v : json) (t : pytype) : bool :=
  match t, v with
  | IntT, JInt _ => true
  | IntT, JBool _ => true
  | StrT, JStr _ => true
  | _, _ => false
  end.

Fixpoint dict_get (key : string) (items : list (string * json)) : option json :=
  match items with
  | [] => None
  | (k, v) :: items' => if String.eqb k key then Some v else dict_get key items'
  end.

(** [key in data] for a string [key]: key membership in a dict, element
    membership in a list, substring test in a str; the other values are not
    containers. *)
Definition contains (data : json) (key : string) : result bool :=
  match data with
  | JDict items =>
      Ok (match dict_get key items with Some _ => true | None => false end)
  | JList l =>
      Ok (existsb (fun x => match x with
                            | JStr s => String.eqb s key
                            | _ => false
                            end) l)
  | JStr s => Ok (str_in key s)
  | JNull | JBool _ | JInt _ | JFloat _ => Raise TypeError
  end.

(** [data[key]] for a string [key]: only a dict can be indexed by a string. *)
Definition getitem (data : json) (key : string) : result json :=
  match data with
  | JDict items =>
      match dict_get key items with
      | Some v => Ok v
      | None => Raise (KeyError key)
      end
  | _ => Raise TypeError
  end.

(** [for x in data]: the elements of a list, the keys of a dict, the
    characters of a str. *)
Definition iter (data : json) : result (list json) :=
  match data with
  | JList l => Ok l
  | JDict items => Ok (map (fun kv => JStr (fst kv)) items)
  | JStr s => Ok (map JStr (chars s))
  | JNull | JBool _ | JInt _ | JFloat _ => Raise TypeError
  end.

(** [v in S] for a set [S] of strings: the value is hashed first, and lists
    and dicts are unhashable. *)
Definition in_str_set (v : json) (S : list string) : result bool :=
  match v with
  | JStr s => Ok (existsb (String.eqb s) S)
  | JList _ | JDict _ => Raise TypeError
  | JNull | JBool _ | JInt _ | JFloat _ => Ok false
  end.

(** [l.remove(x)]: drops the first element equal to [x], [ValueError] when
    there is none. *)
Fixpoint list_remove {A : Type} (eqb : A -> A -> bool) (x : A) (l : list A)
  : result (list A) :=
  match l with
  | [] => Raise ValueError
  | y :: l' =>
      if eqb y x then Ok l'
      else bind (list_remove eqb x l') (fun r => Ok (y :: r))
  end.

(** [str.lower] is Python's Unicode lower-casing and is taken as given where
    the program calls it; this is its restriction to ASCII text, to run
    examples with. *)
Fixpoint ascii_lower (s : string) : string :=
  match s with
  | EmptyString => EmptyString
  | String a s' =>
      let n := nat_of_ascii a in
      String (if (65 <=? n)%nat && (n <=? 90)%nat then ascii_of_nat (n + 32)
              else a)
             (ascii_lower s')
  end.

End Py.

Import Py.

Declare Scope py_scope.
Delimit Scope py_scope with py.
Notation "x <- c ;; k" := (Py.bind c (fun x => k))
  (at level 61, c at next level, right associativity) : py_scope.
Local Open Scope py_scope.

(** ** class Book *)

Module Book.

(** The five attributes, typed as [__init__] annotates them. *)
Record t : Type := mk {
  id : pyint;
  title : string;
  author : string;
  year : pyint;
  status : string
}.

Definition available : string := "в наличии".
Definition checked_out : string := "выдана".

(** [Book(book_id, title, author, year)]: [status] defaults to "в наличии". *)
Definition new (book_id : pyint) (title author : string) (year : pyint) : t :=
  mk book_id title author year available.

(** [book.status = new_status]. *)
Definition set_status (self : t) (new_status : string) : t :=
  mk (id self) (title self) (author self) (year self) new_status.

(** The same instance of [int]: same class, same value. *)
Definition pyint_eqb (a b : pyint) : bool :=
  match a, b with
  | PInt x, PInt y => x =? y
  | PBool x, PBool y => Bool.eqb x y
  | _, _ => false
  end.

(** [Book] defines no [__eq__]: two references are equal when they are the
    same object.  [Library] only ever looks in its list for the object
    [find_book_by_id] has just returned, the first with its id; the books
    before it have another id, so the first book with the same five
    attributes stands where the object stands. *)
Definition eqb (a b : t) : bool :=
  pyint_eqb (id a) (id b) && String.eqb (title a) (title b) &&
  String.eqb (author a) (author b) && pyint_eqb (year a) (year b) &&
  String.eqb (status a) (status b).

Definition to_dict (self : t) : json :=
  JDict [("id", of_int (id self));
         ("title", JStr (title self));
         ("author", JStr (author self));
         ("year", of_int (year self));
         ("status", JStr (status self))].

(** Reading a decoded value into a field annotated [int] or [str]. *)
Definition as_int (v : json) : result pyint :=
  match v with
  | JInt z => Ok (PInt z)
  | JBool b => Ok (PBool b)
  | _ => Untyped
  end.

Definition as_str (v : json) : result string :=
  match v with
  | JStr s => Ok s
  | _ => Untyped
  end.

(** [from_dict] reads the five keys in the order the call lists them and
    checks nothing itself. *)
Definition from_dict (data : json) : result t :=
  i <- getitem data "id" ;;
  t <- getitem data "title" ;;
  a <- getitem data "author" ;;
  y <- getitem data "year" ;;
  s <- getitem data "status" ;;
  book_id <- as_int i ;;
  title <- as_str t ;;
  author <- as_str a ;;
  year <- as_int y ;;
  status <- as_str s ;;
  Ok (mk book_id title author year status).

Definition required_fields : list (string * pytype) :=
  [("id", IntT); ("title", StrT); ("author", StrT); ("year", IntT);
   ("status", StrT)].

Definition valid_statuses : list string := [available; checked_out].

(** The loop of [validate_dict] over [required_fields.items()]: [false] at
    the first field that is missing or of another type. *)
Fixpoint check_fields (fields : list (string * pytype)) (data : json)
  : result bool :=
  match fields with
  | [] => Ok true
  | (field, field_type) :: fields' =>
      present <- contains data field ;;
      if negb present then Ok false
      else
        v <- getitem data field ;;
        if negb (isinstance v field_type) then Ok false
        else check_fields fields' data
  end.

Definition validate_dict (data : json) : result bool :=
  typed <- check_fields required_fields data ;;
  if negb typed then Ok false
  else
    s <- getitem data "status" ;;
    known <- in_str_set s valid_statuses ;;
    if negb known then Ok false else Ok true.

End Book.

(** ** class Library *)

Module Library.

(** The file [data_file] names: absent, holding text [json.load] rejects
    with [JSONDecodeError], or holding a JSON document, kept as the value
    [json.load] decodes it to and [json.dump] wrote it from.  A file on
    which [open] or [json.load] raises anything else ([UnicodeDecodeError],
    [ValueError], [RecursionError]) has no state here: [load_books] catches
    none of these and gives no result on such a file. *)
Inductive backend : Type :=
| NoFile
| Garbled
| Document (data : json).

(** One [print] call.  The diagnostic of [load_books] formats an arbitrary
    decoded value and is kept with that value; every other message is the
    text printed. *)
Inductive line : Type :=
| Text (s : string)
| InvalidEntry (raw_book : json).

(** A [Library] object with the part of the world it acts on: the list
    [self.books], the content of the file [self.data_file] names, and what
    has been printed so far.  Every object of [self.books] is made by
    [from_dict] in [load_books] or by [add_book] and appended once, so no
    object stands in the list twice and the list of objects is the list of
    their attribute values. *)
Record t : Type := mk {
  books : list Book.t;
  data_file : backend;
  stdout : list line
}.

Definition print (l : line) (self : t) : t :=
  mk (books self) (data_file self) (stdout self ++ [l]).

Definition set_books (l : list Book.t) (self : t) : t :=
  mk l (data_file self) (stdout self).

Definition msg_read_error : string :=
  "Ошибка чтения данных. Создается новая библиотека.".
Definition msg_added (title : string) (book_id : pyint) : string :=
  "Книга '" ++ title ++ "' добавлена с ID " ++ str book_id ++ ".".
Definition msg_deleted (book_id : pyint) : string :=
  "Книга с ID " ++ str book_id ++ " удалена.".
Definition msg_not_found (book_id : pyint) : string :=
  "Книга с ID " ++ str book_id ++ " не найдена.".
Definition msg_no_matches : string := "Книги по вашему запросу не найдены.".
Definition msg_empty : string := "Библиотека пуста.".
Definition msg_book (book : Book.t) : string :=
  "ID: " ++ str (Book.id book) ++ " | Название: " ++ Book.title book ++
  " | Автор: " ++ Book.author book ++ " | Год: " ++ str (Book.year book) ++
  " | Статус: " ++ Book.status book.
Definition msg_status_changed (book_id : pyint) (new_status : string) : string :=
  "Статус книги с ID " ++ str book_id ++ " изменен на '" ++ new_status ++ "'.".
Definition msg_bad_status : string :=
  "Некорректный статус. Допустимые статусы: 'в наличии', 'выдана'.".

(** The [for raw_book in data] loop of [load_books]; [books] is the list
    built so far and [out] the diagnostics printed so far. *)
Fixpoint load_loop (data : list json) (books : list Book.t) (out : list line)
  : result (list Book.t * list line) :=
  match data with
  | [] => Ok (books, out)
  | raw_book :: data' =>
      valid <- Book.validate_dict raw_book ;;
      if valid then
        book <- Book.from_dict raw_book ;;
        load_loop data' (books ++ [book]) out
      else load_loop data' books (out ++ [InvalidEntry raw_book])
  end.

(** [load_books]: the books read and the lines printed. [FileNotFoundError]
    and [JSONDecodeError] are the two exceptions caught. *)
Definition load_books (file : backend) : result (list Book.t * list line) :=
  match file with
  | NoFile => Ok ([], [])
  | Garbled => Ok ([], [Text msg_read_error])
  | Document data =>
      entries <- iter data ;;
      load_loop entries [] []
  end.

(** [Library(data_file)] in a world where the file holds [file] and [out]
    has been printed. *)
Definition __init__ (file : backend) (out : list line) : result t :=
  r <- load_books file ;;
  Ok (mk (fst r) file (out ++ snd r)).

(** [_save_books]: the file is overwritten with the list of the books'
    dicts.  Opening and writing the file are taken to succeed: a write that
    raises ([OSError], an encoding error) ends the call that made it without
    a result, and what is proved below of [add_book], [delete_book],
    [update_status] and [main] is proved of the calls whose writes go
    through. *)
Definition _save_books (self : t) : t :=
  mk (books self) (Document (JList (map Book.to_dict (books self))))
     (stdout self).

Definition add_book (title author : string) (year : pyint) (self : t)
  : Book.t * t :=
  let book_id := int_add (max (map Book.id (books self)) (PInt 0)) (PInt 1) in
  let new_book := Book.new book_id title author year in
  let self := set_books (books self ++ [new_book]) self in
  let self := _save_books self in
  let self := print (Text (msg_added title book_id)) self in
  (new_book, self).

(** [next((book for book in self.books if book.id == book_id), None)]. *)
Fixpoint first_with_id (book_id : pyint) (l : list Book.t) : option Book.t :=
  match l with
  | [] => None
  | book :: l' =>
      if int_eqb (Book.id book) book_id then Some book
      else first_with_id book_id l'
  end.

Definition find_book_by_id (book_id : pyint) (self : t) : option Book.t :=
  first_with_id book_id (books self).

Definition delete_book (book_id : pyint) (self : t) : result t :=
  match find_book_by_id book_id self with
  | Some book =>
      l <- list_remove Book.eqb book (books self) ;;
      let self := set_books l self in
      let self := _save_books self in
      Ok (print (Text (msg_deleted book_id)) self)
  | None => Ok (print (Text (msg_not_found book_id)) self)
  end.

(** [books or self.books]: an absent or empty argument gives way to the
    catalogue's own list. *)
Definition or_books (books : option (list Book.t)) (self : t) : list Book.t :=
  match books with
  | Some (b :: l) => b :: l
  | Some [] | None => Library.books self
  end.

Definition find_books (books : option (list Book.t)) (self : t)
  : option (list Book.t) :=
  match or_books books self with
  | [] => None
  | b :: l => Some (b :: l)
  end.

Definition display_books (books : option (list Book.t)) (self : t) : t :=
  match or_books books self with
  | [] => print (Text msg_empty) self
  | b :: l =>
      fold_left (fun self book => print (Text (msg_book book)) self) (b :: l)
                self
  end.

(** [book.status = new_status] for a [book] found in the list: the object is
    updated where it stands. *)
Fixpoint assign_status (book : Book.t) (new_status : string) (l : list Book.t)
  : list Book.t :=
  match l with
  | [] => []
  | x :: l' =>
      if Book.eqb x book then Book.set_status x new_status :: l'
      else x :: assign_status book new_status l'
  end.

Definition update_status (book_id : pyint) (new_status : string) (self : t)
  : t :=
  match find_book_by_id book_id self with
  | Some book =>
      if existsb (String.eqb new_status) [Book.available; Book.checked_out]
      then
        let self := set_books (assign_status book new_status (books self)) self in
        let self := _save_books self in
        print (Text (msg_status_changed book_id new_status)) self
      else print (Text msg_bad_status) self
  | None => print (Text (msg_not_found book_id)) self
  end.

Section Search.

(** [str.lower], Python's Unicode lower-casing, is taken as given. *)
Variable lower : string -> string.

(** The list comprehension of [search_books]. *)
Definition matches (keyword : string) (book : Book.t) : bool :=
  str_in (lower keyword) (lower (Book.title book)) ||
  str_in (lower keyword) (lower (Book.author book)) ||
  String.eqb (str (Book.year book)) keyword.

Definition search_results (keyword : string) (self : t) : list Book.t :=
  filter (matches keyword) (books self).

Definition search_books (keyword : string) (self : t) : t :=
  match search_results keyword self with
  | b :: l => display_books (Some (b :: l)) self
  | [] => print (Text msg_no_matches) self
  end.

End Search.

(** The three mutating calls; [step] performs one and gives back the book
    [add_book] returns, [run] performs a sequence and collects the ids of the
    books the [add_book] calls returned. *)
Inductive call : Type :=
| Add (title author : string) (year : pyint)
| Delete (book_id : pyint)
| UpdateStatus (book_id : pyint) (new_status : string).

Definition step (c : call) (self : t) : result (option Book.t * t) :=
  match c with
  | Add title author year =>
      let '(book, self) := add_book title author year self in
      Ok (Some book, self)
  | Delete book_id =>
      self <- delete_book book_id self ;;
      Ok (None, self)
  | UpdateStatus book_id new_status =>
      Ok (None, update_status book_id new_status self)
  end.

Fixpoint run (calls : list call) (self : t) : result (list pyint * t) :=
  match calls with
  | [] => Ok ([], self)
  | c :: calls' =>
      r <- step c self ;;
      r' <- run calls' (snd r) ;;
      Ok (match fst r with
          | Some book => Book.id book :: fst r'
          | None => fst r'
          end, snd r')
  end.

End Library.

(** ** The vocabulary of the specification *)

Module Spec.

Definition id_of (book : Book.t) : Z := int_val (Book.id book).

(** The two permitted status values. *)
Definition permitted (status : string) : Prop :=
  status = "в наличии" \/ status = "выдана".

(** The Record validation rule of the data model; that [id] and [year] are
    integers and [title] and [author] text is in the type of the fields. *)
Definition record_rule (book : Book.t) : Prop :=
  0 < id_of book /\ Book.title book <> "" /\ Book.author book <> "" /\
  permitted (Book.status book).

Definition unique_ids (l : list Book.t) : Prop := NoDup (map id_of l).

Definition catalog_invariant (l : list Book.t) : Prop :=
  Forall record_rule l /\ unique_ids l.

(** What the program checks of a record: [validate_dict] accepts its dict. *)
Definition accepted (book : Book.t) : Prop :=
  Book.validate_dict (Book.to_dict book) = Ok true.

(** [m] is the maximum existing id, or 0 if the collection is empty. *)
Definition greatest_id (l : list Book.t) (m : Z) : Prop :=
  match l with
  | [] => m = 0
  | _ :: _ => In m (map id_of l) /\ Forall (fun book => id_of book <= m) l
  end.

(** [sub] occurs in [s]. *)
Definition substring (sub s : string) : Prop :=
  exists pre post : string, s = (pre ++ sub ++ post)%string.



(** The id [add_book] would compute in this state, less one. *)
Definition max_id (self : Library.t) : Z :=
  int_val (Py.max (map Book.id (Library.books self)) (PInt 0)).

(** No call of the sequence lowers the greatest id of the collection: no
    [Delete] removes the record that holds it alone. *)
Fixpoint max_kept (calls : list Library.call) (self : Library.t) : bool :=
  match calls with
  | [] => true
  | c :: calls' =>
      match Library.step c self with
      | Ok (_, self') => (max_id self <=? max_id self') && max_kept calls' self'
      | _ => false
      end
  end.

Definition is_add (c : Library.call) : bool :=
  match c with
  | Library.Add _ _ _ => true
  | _ => false
  end.

End Spec.

(** ** main(): the menu loop *)

Module Main.

(** How a statement ends when it does not run on to the next one:
    [continue], [break], an exception of [Py.exn], the [EOFError] of [input]
    at the end of standard input, or [Unmodelled] when a Library call ends
    [Untyped]. *)
Inductive signal : Type :=
| Continue
| Break
| Raised (e : exn)
| EOFError
| Unmodelled.

(** A piece of [main]: it runs on the lines still to be read from standard
    input and on the [library] object with its world, and gives a value or a
    signal, the lines left and the library after. *)
Definition io (A : Type) : Type :=
  list string -> Library.t -> (A + signal) * list string * Library.t.

Definition ret {A : Type} (a : A) : io A :=
  fun stdin library => (inl a, stdin, library).

Definition bind {A B : Type} (c : io A) (k : A -> io B) : io B :=
  fun stdin library =>
    match c stdin library with
    | (inl a, stdin', library') => k a stdin' library'
    | (inr s, stdin', library') => (inr s, stdin', library')
    end.

Definition stop {A : Type} (s : signal) : io A :=
  fun stdin library => (inr s, stdin, library).

(** [print(text)]. *)
Definition print (text : string) : io unit :=
  fun stdin library =>
    (inl tt, stdin, Library.print (Library.Text text) library).

(** [input(prompt)]: the prompt is written to standard output, recorded like
    the text of a [print]; then a line is read, or [EOFError] raised when
    none is left. *)
Definition input (prompt : string) : io string :=
  fun stdin library =>
    let library := Library.print (Library.Text prompt) library in
    match stdin with
    | [] => (inr EOFError, [], library)
    | l :: stdin' => (inl l, stdin', library)
    end.

(** A method call on [library] that returns nothing of use. *)
Definition call (method : Library.t -> Library.t) : io unit :=
  fun stdin library => (inl tt, stdin, method library).

(** A method call on [library] that may raise. *)
Definition call_result (method : Library.t -> result Library.t) : io unit :=
  fun stdin library =>
    match method library with
    | Ok library' => (inl tt, stdin, library')
    | Raise e => (inr (Raised e), stdin, library)
    | Untyped => (inr Unmodelled, stdin, library)
    end.

(** A method call on [library] for its value. *)
Definition ask {A : Type} (method : Library.t -> A) : io A :=
  fun stdin library => (inl (method library), stdin, library).

(** [try: body except ValueError: handler]. *)
Definition try_except_ValueError (body handler : io unit) : io unit :=
  fun stdin library =>
    match body stdin library with
    | (inr (Raised ValueError), stdin', library') => handler stdin' library'
    | r => r
    end.

Declare Scope io_scope.
Delimit Scope io_scope with io.
Notation "x <- c ;; k" := (bind c (fun x => k))
  (at level 61, c at next level, right associativity) : io_scope.
Notation "c ;; k" := (bind c (fun _ => k))
  (at level 61, right associativity) : io_scope.

Section Main.

Local Open Scope io_scope.

(** [str.lower] and [int] applied to a string are taken as given; [int s] is
    [None] where Python raises [ValueError]. *)
Variable lower : string -> string.
Variable int : string -> option Z.

Definition to_int (s : string) : io pyint :=
  match int s with
  | Some z => ret (PInt z)
  | None => stop (Raised ValueError)
  end.

Definition menu : io unit :=
  print (String "010" "Меню:") ;;
  print "1. Добавить книгу" ;;
  print "2. Удалить книгу" ;;
  print "3. Поиск книги" ;;
  print "4. Отобразить все книги" ;;
  print "5. Изменить статус книги" ;;
  print "6. Выйти".

(** The branch of the [if] chain under [choice == "5"]. *)
Definition change_status : io unit :=
  books <- ask (Library.find_books None) ;;
  match books with
  | None | Some [] => print "Библиотека пуста." ;; stop Continue
  | Some (_ :: _) =>
      try_except_ValueError
        (s <- input "Введите ID книги: " ;;
         book_id <- to_int s ;;
         found <- ask (Library.find_book_by_id book_id) ;;
         match found with
         | None => print (Library.msg_not_found book_id) ;; stop Continue
         | Some _ =>
             print "Выберите новый статус:" ;;
             print "1. в наличии" ;;
             print "2. выдана" ;;
             s <- input "Введите номер: " ;;
             status_choice <- to_int s ;;
             new_status <-
               (if int_eqb status_choice (PInt 1) then ret "в наличии"
                else if int_eqb status_choice (PInt 2) then ret "выдана"
                else print "Ошибка: некорректный выбор статуса." ;;
                     stop Continue) ;;
             call (Library.update_status book_id new_status) ;;
             print "Статус книги успешно обновлён."
         end)
        (print "Ошибка: некорректный ввод. Убедитесь, что вводите числа.")
  end.

(** The [if] chain on [choice]. *)
Definition dispatch (choice : string) : io unit :=
  if String.eqb choice "1" then
    title <- input "Введите название книги: " ;;
    author <- input "Введите автора книги: " ;;
    s <- input "Введите год издания: " ;;
    year <- to_int s ;;
    call (fun library => snd (Library.add_book title author year library))
  else if String.eqb choice "2" then
    s <- input "Введите ID книги для удаления: " ;;
    book_id <- to_int s ;;
    call_result (Library.delete_book book_id)
  else if String.eqb choice "3" then
    keyword <-
      input "Введите ключевое слово для поиска (название, автор или год): " ;;
    call (Library.search_books lower keyword)
  else if String.eqb choice "4" then
    call (Library.display_books None)
  else if String.eqb choice "5" then
    change_status
  else if String.eqb choice "6" then
    print "Выход из программы." ;; stop Break
  else
    print "Некорректный ввод. Попробуйте снова.".

(** One pass through the body of [while True]. *)
Definition turn : io unit :=
  menu ;;
  choice <- input "Выберите действие: " ;;
  dispatch choice.

(** [while True]: at most [fuel] passes.  It ends by a signal; [Continue]
    says that the passes allowed did not end it. *)
Fixpoint loop (fuel : nat) (stdin : list string) (library : Library.t)
  : signal * list string * Library.t :=
  match fuel with
  | O => (Continue, stdin, library)
  | S fuel' =>
      match turn stdin library with
      | (inl _, stdin', library') | (inr Continue, stdin', library') =>
          loop fuel' stdin' library'
      | (inr s, stdin', library') => (s, stdin', library')
      end
  end.

(** Every pass that does not end the loop reads a line, so one pass more
    than there are lines is enough. *)
Definition main_loop (stdin : list string) (library : Library.t)
  : signal * list string * Library.t :=
  loop (S (List.length stdin)) stdin library.

(** [main()], with the file [data.json] holding [file]. *)
Definition main (file : Library.backend) (stdin : list string)
  : result (signal * list string * Library.t) :=
  Py.bind (Library.__init__ file []) (fun library =>
  Ok (main_loop stdin library)).

End Main.

(** [int] restricted to plain decimal numerals, to run examples with. *)
Definition decimal_int (s : string) : option Z :=
  option_map Z.of_int (NilZero.int_of_string s).

End Main.

(** ** Auxiliary definitions for the proofs *)

(** A decoded entry that is a dict. *)
Definition is_dict (v : json) : bool :=
  match v with
  | JDict _ => true
  | _ => false
  end.

(** [validate_dict] returned [True]. *)
Definition valid (raw_book : json) : bool :=
  match Book.validate_dict raw_book with
  | Ok true => true
  | _ => false
  end.

(** The test the field loop of [validate_dict] makes of one required field
    when the entry is a dict. *)
Definition field_ok (items : list (string * json)) (f : string * pytype)
  : bool :=
  match dict_get (fst f) items with
  | Some v => isinstance v (snd f)
  | None => false
  end.

(** What one mutating call does to the list: it appends a fresh record, or
    leaves the list alone, or drops one record, or re-statuses one. *)
Inductive change (self : Library.t) : option Book.t -> list Book.t -> Prop :=
| change_add (new_book : Book.t) :
    Spec.id_of new_book = Spec.max_id self + 1 ->
    Book.status new_book = Book.available ->
    change self (Some new_book) (Library.books self ++ [new_book])
| change_none : change self None (Library.books self)
| change_drop (pre post : list Book.t) (book : Book.t) :
    Library.books self = pre ++ book :: post ->
    change self None (pre ++ post)
| change_status (pre post : list Book.t) (book : Book.t) (st : string) :
    Library.books self = pre ++ book :: post ->
    Spec.permitted st ->
    change self None (pre ++ Book.set_status book st :: post).

(** A catalogue of two records, one of them checked out. *)
Definition two_books : Library.t :=
  Library.mk
    [Book.mk (PInt 1) "Title 1" "Author 1" (PInt 2024) "выдана";
     Book.mk (PInt 2) "Title 2" "Author 2" (PInt 2023) "в наличии"]
    Library.NoFile [].

(** The catalogue of a first run: no file yet, nothing printed. *)
Definition first_run : Library.t := Library.mk [] Library.NoFile [].

(** The keys [from_dict] reads, in the order it reads them, and the first of
    them a dict lacks. *)
Definition five_keys : list string :=
  ["id"; "title"; "author"; "year"; "status"].

Definition first_missing (items : list (string * json)) : option string :=
  find (fun key => match dict_get key items with
                   | None => true
                   | Some _ => false
                   end) five_keys.

(** A decoded value that is no container: [None], a bool or a number. *)
Definition is_scalar (v : json) : bool :=
  match v with
  | JNull | JBool _ | JInt _ | JFloat _ => true
  | JStr _ | JList _ | JDict _ => false
  end.

(** The list [display_books] shows for an argument. *)
Definition shown (books : option (list Book.t)) (self : Library.t)
  : list Book.t :=
  match books with
  | Some (b :: l) => b :: l
  | _ => Library.books self
  end.

(** The file holds what [_save_books] writes for the list in memory. *)
Definition saved (self : Library.t) : Prop :=
  Library.data_file self =
  Library.Document (JList (map Book.to_dict (Library.books self))).

(** Loading the file gives the list in memory, with some diagnostics. *)
Definition reloads (self : Library.t) : Prop :=
  exists diag,
    Library.load_books (Library.data_file self) = Ok (Library.books self, diag).

(** Two states with the same list of books and the same file; what was
    printed may differ. *)
Definition same_store (a b : Library.t) : Prop :=
  Library.books a = Library.books b /\
  Library.data_file a = Library.data_file b.

(** The calls [main] makes: [update_status] only with one of the two
    statuses of its menu. *)
Definition menu_call (c : Library.call) : Prop :=
  match c with
  | Library.UpdateStatus _ new_status => Spec.permitted new_status
  | _ => True
  end.

(** The list and the file of [library'] are those a sequence of mutating
    calls of the menu gives from [library]. *)
Definition reaches (library library' : Library.t) : Prop :=
  exists calls ids after,
    Forall menu_call calls /\
    Library.run calls library = Ok (ids, after) /\
    same_store after library'.

(** The lines [stdin'] are what is left of [stdin] after some were read. *)
Definition rest_of (stdin stdin' : list string) : Prop :=
  exists read, stdin = read ++ stdin'.

(** Every run of [c] relates the state it starts in to the state it ends
    in by [R], however it ends. *)
Definition respects {A : Type}
           (R : list string -> Library.t -> list string -> Library.t -> Prop)
           (c : Main.io A) : Prop :=
  forall stdin library r stdin' library',
    c stdin library = (r, stdin', library') -> R stdin library stdin' library'.

(** The five lookups [from_dict] makes, each of them successful. *)
Ltac five_fields items :=
  destruct (dict_get "id" items) as [?v|]; [|discriminate];
  destruct (dict_get "title" items) as [?v|]; [|discriminate];
  destruct (dict_get "author" items) as [?v|]; [|discriminate];
  destruct (dict_get "year" items) as [?v|]; [|discriminate];
  destruct (dict_get "status" items) as [?v|]; [|discriminate].

(** ** Facts about the Python fragment *)

Lemma prefix_split (sub s : string) :
  prefix sub s = true <-> exists post : string, s = (sub ++ post)%string.
Proof.
  revert s; induction sub as [|a sub IH]; intros s; simpl.
  - split; [intros _; now exists s | now destruct s].
  - destruct s as [|b s]; simpl.
    + split; [discriminate | intros [post H]; discriminate].
    + destruct (Ascii.ascii_dec a b) as [->|Hab].
      * rewrite IH. split; intros [post H]; exists post.
        -- now rewrite H.
        -- now injection H.
      * split; [discriminate|].
        intros [post H]. injection H as H1 H2. now elim Hab.
Qed.

Lemma str_in_substring (sub s : string) :
  str_in sub s = true <-> Spec.substring sub s.
Proof.
  unfold Spec.substring.
  induction s as [|a s IH]; cbn [str_in].
  - rewrite orb_false_r, prefix_split. split.
    + intros [post H]. now exists EmptyString, post.
    + intros [pre [post H]]. destruct pre; simpl in H.
      * now exists post.
      * discriminate.
  - rewrite orb_true_iff, prefix_split, IH. split.
    + intros [[post H]|[pre [post H]]].
      * now exists EmptyString, post.
      * exists (String a pre), post. simpl. now rewrite H.
    + intros [pre [post H]]. destruct pre as [|b pre]; simpl in H.
      * left. now exists post.
      * right. injection H as _ H. now exists pre, post.
Qed.

Lemma max_from_bounds (l : list pyint) (m : pyint) :
  int_val m <= int_val (max_from m l) /\
  Forall (fun x => int_val x <= int_val (max_from m l)) l /\
  (max_from m l = m \/ In (max_from m l) l).
Proof.
  revert m; induction l as [|x l IH]; intros m; simpl.
  - repeat split; [lia | constructor | now left].
  - unfold int_gtb.
    destruct (Z.ltb_spec (int_val m) (int_val x)) as [H|H].
    + destruct (IH x) as (H1 & H2 & H3). repeat split.
      * lia.
      * constructor; assumption.
      * right. destruct H3 as [->|H3]; [now left | now right].
    + destruct (IH m) as (H1 & H2 & H3). repeat split.
      * assumption.
      * constructor; [lia | assumption].
      * destruct H3 as [H3|H3]; [now left | right; now right].
Qed.

Lemma max_upper (l : list pyint) (d x : pyint) :
  In x l -> int_val x <= int_val (Py.max l d).
Proof.
  destruct l as [|y l]; simpl; [easy|].
  destruct (max_from_bounds l y) as (H1 & H2 & _).
  intros [<-|H]; [assumption|].
  rewrite Forall_forall in H2. now apply H2.
Qed.

Lemma max_member (l : list pyint) (d : pyint) :
  l <> [] -> In (Py.max l d) l.
Proof.
  destruct l as [|y l]; [easy|]. intros _. simpl.
  destruct (max_from_bounds l y) as (_ & _ & [->|H]); [now left | now right].
Qed.

Lemma pyint_eqb_eq (a b : pyint) : Book.pyint_eqb a b = true <-> a = b.
Proof.
  destruct a as [x|x], b as [y|y]; simpl; try (split; discriminate).
  - rewrite Z.eqb_eq. split; congruence.
  - rewrite Bool.eqb_true_iff. split; congruence.
Qed.

Lemma book_eqb_eq (a b : Book.t) : Book.eqb a b = true <-> a = b.
Proof.
  unfold Book.eqb. rewrite !andb_true_iff, !pyint_eqb_eq, !String.eqb_eq.
  destruct a, b; simpl. split.
  - intros ((((-> & ->) & ->) & ->) & ->). reflexivity.
  - intros H. injection H as -> -> -> -> ->. repeat split.
Qed.

Lemma book_eqb_refl (a : Book.t) : Book.eqb a a = true.
Proof. now apply book_eqb_eq. Qed.

Lemma int_eqb_val (a b : pyint) : int_eqb a b = true <-> int_val a = int_val b.
Proof. unfold int_eqb. apply Z.eqb_eq. Qed.

Lemma int_eqb_val_false (a b : pyint) :
  int_eqb a b = false <-> int_val a <> int_val b.
Proof. unfold int_eqb. apply Z.eqb_neq. Qed.

(** ** Facts about Book *)

Lemma permitted_existsb (s : string) :
  existsb (String.eqb s) Book.valid_statuses = true <-> Spec.permitted s.
Proof.
  unfold Book.valid_statuses, Spec.permitted, Book.available, Book.checked_out.
  cbn [existsb]. rewrite !orb_true_iff, !String.eqb_eq.
  intuition discriminate.
Qed.

Lemma validate_to_dict (book : Book.t) :
  Book.validate_dict (Book.to_dict book) =
  Ok (existsb (String.eqb (Book.status book)) Book.valid_statuses).
Proof.
  destruct book as [[i|i] t a [y|y] s]; unfold Book.validate_dict; simpl;
    destruct (_ || _); reflexivity.
Qed.

Lemma accepted_permitted (book : Book.t) :
  Spec.accepted book <-> Spec.permitted (Book.status book).
Proof.
  unfold Spec.accepted. rewrite validate_to_dict, <- permitted_existsb.
  split; congruence.
Qed.

Lemma from_dict_to_dict_eq (book : Book.t) :
  Book.from_dict (Book.to_dict book) = Ok book.
Proof. destruct book as [[i|i] t a [y|y] s]; reflexivity. Qed.

(** On a dict the field loop never raises: it is a conjunction of lookups. *)
Lemma check_fields_dict (fields : list (string * pytype))
      (items : list (string * json)) :
  Book.check_fields fields (JDict items) = Ok (forallb (field_ok items) fields).
Proof.
  induction fields as [|[f ty] fields IH]; [reflexivity|].
  cbn [Book.check_fields forallb]. unfold field_ok at 1. simpl.
  destruct (dict_get f items) as [v|]; simpl; [|reflexivity].
  destruct (isinstance v ty); simpl; [exact IH | reflexivity].
Qed.

Lemma isinstance_str (v : json) :
  isinstance v StrT = true -> exists s, v = JStr s.
Proof. destruct v; simpl; try discriminate. intros _. now eexists. Qed.

Lemma isinstance_int (v : json) :
  isinstance v IntT = true -> exists i, v = of_int i.
Proof.
  destruct v; simpl; try discriminate; intros _.
  - now exists (PBool b).
  - now exists (PInt z).
Qed.

Lemma validate_dict_dict (items : list (string * json)) :
  exists v, Book.validate_dict (JDict items) = Ok v.
Proof.
  unfold Book.validate_dict. rewrite check_fields_dict.
  destruct (forallb _ _) eqn:E; simpl; [|now eexists].
  unfold Book.required_fields in E. simpl in E.
  rewrite !andb_true_iff in E. destruct E as (_ & _ & _ & _ & E & _).
  unfold field_ok in E. simpl in E.
  destruct (dict_get "status" items) as [v|]; [|discriminate].
  apply isinstance_str in E. destruct E as [s ->]. simpl.
  destruct (_ || _); simpl; now eexists.
Qed.

Lemma validate_dict_only_dicts (data : json) :
  Book.validate_dict data = Ok true -> exists items, data = JDict items.
Proof.
  destruct data; try discriminate.
  - unfold Book.validate_dict. simpl. destruct (str_in "id" s); discriminate.
  - unfold Book.validate_dict. simpl. destruct (existsb _ l); discriminate.
  - intros _. now eexists.
Qed.

(** Whatever [validate_dict] accepts, [from_dict] turns into a book. *)
Lemma from_dict_validated (data : json) :
  Book.validate_dict data = Ok true -> exists book, Book.from_dict data = Ok book.
Proof.
  intros H. destruct (validate_dict_only_dicts data H) as [items ->].
  unfold Book.validate_dict in H. rewrite check_fields_dict in H.
  destruct (forallb _ _) eqn:E; simpl in H; [|discriminate].
  unfold Book.required_fields in E. simpl in E.
  rewrite !andb_true_iff in E. destruct E as (E1 & E2 & E3 & E4 & E5 & _).
  unfold field_ok in *. simpl in *. unfold Book.from_dict. simpl.
  five_fields items.
  apply isinstance_int in E1, E4. apply isinstance_str in E2, E3, E5.
  destruct E1 as [i ->], E2 as [t ->], E3 as [a ->], E4 as [y ->], E5 as [s ->].
  destruct i, y; simpl; now eexists.
Qed.

(** A book read by [load_books] passes the check its entry passed. *)
Lemma from_dict_accepted (data : json) (book : Book.t) :
  Book.validate_dict data = Ok true -> Book.from_dict data = Ok book ->
  Spec.accepted book.
Proof.
  intros H F. destruct (validate_dict_only_dicts data H) as [items ->].
  apply accepted_permitted, permitted_existsb.
  unfold Book.validate_dict in H. rewrite check_fields_dict in H.
  destruct (forallb _ _); simpl in H; [|discriminate].
  unfold Book.from_dict in F. simpl in F.
  five_fields items. simpl in F, H.
  destruct (Book.as_int v); try discriminate.
  destruct (Book.as_str v0); try discriminate.
  destruct (Book.as_str v1); try discriminate.
  destruct (Book.as_int v2); try discriminate. simpl in F.
  destruct v3; try discriminate. simpl in F, H.
  injection F as <-. simpl.
  destruct (_ || _); [reflexivity | discriminate].
Qed.

(** ** Facts about load_books and _save_books *)

Lemma load_loop_acc (data : list json) (acc : list Book.t) (out : list Library.line) :
  Library.load_loop data acc out =
  (r <- Library.load_loop data [] [] ;; Ok (acc ++ fst r, out ++ snd r)).
Proof.
  revert acc out. induction data as [|raw data IH]; intros acc out.
  - simpl. now rewrite !app_nil_r.
  - cbn [Library.load_loop].
    destruct (Book.validate_dict raw) as [[|]|e|]; simpl; try reflexivity.
    + destruct (Book.from_dict raw) as [b|e|]; simpl; try reflexivity.
      rewrite (IH (acc ++ [b]) out), (IH [b] []).
      destruct (Library.load_loop data [] []) as [[bs o]|e|]; simpl;
        try reflexivity.
      now rewrite <- app_assoc.
    + rewrite (IH acc (out ++ _)), (IH [] [_]).
      destruct (Library.load_loop data [] []) as [[bs o]|e|]; simpl;
        try reflexivity.
      now rewrite <- app_assoc.
Qed.

(** A list of dict entries always loads: the books are the accepted entries
    in file order, and each rejected entry has its diagnostic, in order. *)
Lemma load_loop_dicts (entries : list json) :
  forallb is_dict entries = true ->
  exists books,
    Library.load_loop entries [] [] =
      Ok (books,
          map Library.InvalidEntry (filter (fun e => negb (valid e)) entries)) /\
    Forall2 (fun e book => Book.from_dict e = Ok book)
            (filter valid entries) books.
Proof.
  induction entries as [|raw entries IH]; intros H.
  - exists []. split; [reflexivity | constructor].
  - simpl in H. apply andb_true_iff in H. destruct H as [Hd H].
    destruct (IH H) as (books & L & F). clear IH.
    destruct raw; try discriminate.
    destruct (validate_dict_dict items) as [v V].
    assert (Hv : valid (JDict items) = v)
      by (unfold valid; rewrite V; now destruct v).
    cbn [Library.load_loop filter]. rewrite Hv, V.
    destruct v; simpl.
    + destruct (from_dict_validated _ V) as [b B]. rewrite B. simpl.
      rewrite load_loop_acc, L. simpl.
      exists (b :: books). split; [reflexivity | now constructor].
    + rewrite load_loop_acc, L. simpl. exists books. now split.
Qed.

Lemma load_loop_accepted (data : list json) (acc books : list Book.t)
      (out o : list Library.line) :
  Library.load_loop data acc out = Ok (books, o) ->
  Forall Spec.accepted acc -> Forall Spec.accepted books.
Proof.
  revert acc out. induction data as [|raw data IH]; intros acc out; simpl.
  - intros [= <- <-]. trivial.
  - destruct (Book.validate_dict raw) as [[|]|e|] eqn:V; simpl; try discriminate.
    + destruct (Book.from_dict raw) as [b|e|] eqn:B; simpl; try discriminate.
      intros L A. apply (IH _ _ L).
      apply Forall_app. split; [assumption|].
      constructor; [|constructor]. now apply (from_dict_accepted raw).
    + intros L A. now apply (IH _ _ L).
Qed.

Lemma load_books_accepted (file : Library.backend) (books : list Book.t)
      (out : list Library.line) :
  Library.load_books file = Ok (books, out) -> Forall Spec.accepted books.
Proof.
  destruct file as [| |data]; simpl.
  - intros [= <- <-]. constructor.
  - intros [= <- <-]. constructor.
  - destruct (iter data) as [entries|e|]; simpl; try discriminate.
    intros L. apply (load_loop_accepted _ _ _ _ _ L). constructor.
Qed.

Lemma load_loop_saved (l acc : list Book.t) (out : list Library.line) :
  Forall Spec.accepted l ->
  Library.load_loop (map Book.to_dict l) acc out = Ok (acc ++ l, out).
Proof.
  intros H. revert acc. induction H as [|b l Hb _ IH]; intros acc; simpl.
  - now rewrite app_nil_r.
  - unfold Spec.accepted in Hb. rewrite Hb, from_dict_to_dict_eq. simpl.
    rewrite IH, <- app_assoc. reflexivity.
Qed.

(** [load_books] never stores a value against the annotations of [Book]:
    it builds a book only from an entry [validate_dict] accepted. *)
Lemma load_loop_typed (data : list json) (acc : list Book.t)
      (out : list Library.line) :
  Library.load_loop data acc out <> Untyped.
Proof.
  revert acc out. induction data as [|raw data IH]; intros acc out; simpl.
  - discriminate.
  - destruct (Book.validate_dict raw) as [[|]|e|] eqn:V; simpl.
    + destruct (from_dict_validated raw V) as [b ->]. simpl. apply IH.
    + apply IH.
    + discriminate.
    + exfalso. destruct raw; try discriminate.
      * unfold Book.validate_dict in V. simpl in V.
        destruct (str_in "id" s); discriminate.
      * unfold Book.validate_dict in V. simpl in V.
        destruct (existsb _ l); discriminate.
      * destruct (validate_dict_dict items) as [v V']. congruence.
Qed.

Lemma load_books_typed (file : Library.backend) :
  Library.load_books file <> Untyped.
Proof.
  destruct file as [| |data]; simpl; try discriminate.
  destruct (iter data) as [entries|e|] eqn:I; simpl.
  - apply load_loop_typed.
  - discriminate.
  - destruct data; discriminate.
Qed.

(** An entry that is a number stops the load wherever it stands. *)
Lemma load_loop_int_entry (pre post : list json) (n : Z) (acc : list Book.t)
      (out : list Library.line) (r : list Book.t * list Library.line) :
  Library.load_loop (pre ++ JInt n :: post) acc out <> Ok r.
Proof.
  revert acc out. induction pre as [|raw pre IH]; intros acc out; simpl.
  - discriminate.
  - destruct (Book.validate_dict raw) as [[|]|e|]; simpl; try discriminate.
    + destruct (Book.from_dict raw) as [b|e|]; simpl; try discriminate.
      apply IH.
    + apply IH.
Qed.

(** ** Facts about the list operations of Library *)

Lemma first_with_id_none (book_id : pyint) (l : list Book.t) :
  Library.first_with_id book_id l = None <->
  Forall (fun x => Spec.id_of x <> int_val book_id) l.
Proof.
  unfold Spec.id_of. induction l as [|x l IH]; simpl.
  - split; [constructor | reflexivity].
  - destruct (int_eqb (Book.id x) book_id) eqn:E.
    + apply int_eqb_val in E. split; [discriminate|].
      intros H. inversion H; subst. contradiction.
    + apply int_eqb_val_false in E. rewrite IH. split.
      * intros H. now constructor.
      * intros H. now inversion H.
Qed.

Lemma first_with_id_some (book_id : pyint) (l : list Book.t) (book : Book.t) :
  Library.first_with_id book_id l = Some book <->
  exists pre post,
    l = pre ++ book :: post /\ Spec.id_of book = int_val book_id /\
    Forall (fun x => Spec.id_of x <> int_val book_id) pre.
Proof.
  unfold Spec.id_of. induction l as [|x l IH]; simpl.
  - split; [discriminate|]. intros (pre & post & H & _). now destruct pre.
  - destruct (int_eqb (Book.id x) book_id) eqn:E.
    + apply int_eqb_val in E. split.
      * intros [= <-]. exists [], l. repeat split; [assumption | constructor].
      * intros (pre & post & H & Hb & Hpre). destruct pre as [|y pre].
        -- simpl in H. now injection H as ->.
        -- simpl in H. injection H as <- _. inversion Hpre; subst.
           contradiction.
    + apply int_eqb_val_false in E. rewrite IH. split.
      * intros (pre & post & -> & Hb & Hpre). exists (x :: pre), post.
        repeat split; [assumption | now constructor].
      * intros (pre & post & H & Hb & Hpre). destruct pre as [|y pre].
        -- simpl in H. injection H as -> _. contradiction.
        -- simpl in H. injection H as <- ->. exists pre, post.
           repeat split; [assumption | now inversion Hpre].
Qed.

(** The book found is not equal to any of the books before it: they have
    another id. *)
Lemma before_differs (book_id : pyint) (book : Book.t) (pre : list Book.t) :
  Spec.id_of book = int_val book_id ->
  Forall (fun x => Spec.id_of x <> int_val book_id) pre ->
  Forall (fun x => Book.eqb x book = false) pre.
Proof.
  intros Hb. apply Forall_impl. intros x Hx.
  destruct (Book.eqb x book) eqn:E; [|reflexivity].
  apply book_eqb_eq in E. subst. contradiction.
Qed.

Lemma list_remove_at (book : Book.t) (pre post : list Book.t) :
  Forall (fun x => Book.eqb x book = false) pre ->
  list_remove Book.eqb book (pre ++ book :: post) = Ok (pre ++ post).
Proof.
  induction 1 as [|x pre Hx _ IH]; simpl.
  - now rewrite book_eqb_refl.
  - now rewrite Hx, IH.
Qed.

Lemma assign_status_at (book : Book.t) (new_status : string)
      (pre post : list Book.t) :
  Forall (fun x => Book.eqb x book = false) pre ->
  Library.assign_status book new_status (pre ++ book :: post) =
  pre ++ Book.set_status book new_status :: post.
Proof.
  induction 1 as [|x pre Hx _ IH]; simpl.
  - now rewrite book_eqb_refl.
  - now rewrite Hx, IH.
Qed.

(** [delete_book] never raises: the book it removes was found in the list.
    It either leaves the list alone or drops the first book with the id. *)
Lemma delete_book_cases (book_id : pyint) (self : Library.t) :
  (Library.find_book_by_id book_id self = None /\
   Library.delete_book book_id self =
     Ok (Library.print (Library.Text (Library.msg_not_found book_id)) self)) \/
  (exists pre book post,
     Library.books self = pre ++ book :: post /\
     Spec.id_of book = int_val book_id /\
     Forall (fun x => Spec.id_of x <> int_val book_id) pre /\
     Library.delete_book book_id self =
       Ok (Library.print (Library.Text (Library.msg_deleted book_id))
             (Library._save_books (Library.set_books (pre ++ post) self)))).
Proof.
  unfold Library.delete_book.
  destruct (Library.find_book_by_id book_id self) as [book|] eqn:F.
  - right. apply first_with_id_some in F.
    destruct F as (pre & post & L & Hb & Hpre).
    exists pre, book, post. repeat split; try assumption.
    rewrite L, list_remove_at by (now apply (before_differs book_id)).
    reflexivity.
  - left. now split.
Qed.

Lemma update_status_cases (book_id : pyint) (new_status : string)
      (self : Library.t) :
  (Library.find_book_by_id book_id self = None /\
   Library.update_status book_id new_status self =
     Library.print (Library.Text (Library.msg_not_found book_id)) self) \/
  (exists book, Library.find_book_by_id book_id self = Some book /\
   ~ Spec.permitted new_status /\
   Library.update_status book_id new_status self =
     Library.print (Library.Text Library.msg_bad_status) self) \/
  (exists pre book post,
     Library.books self = pre ++ book :: post /\
     Spec.id_of book = int_val book_id /\
     Forall (fun x => Spec.id_of x <> int_val book_id) pre /\
     Spec.permitted new_status /\
     Library.update_status book_id new_status self =
       Library.print
         (Library.Text (Library.msg_status_changed book_id new_status))
         (Library._save_books
            (Library.set_books
               (pre ++ Book.set_status book new_status :: post) self))).
Proof.
  unfold Library.update_status.
  destruct (Library.find_book_by_id book_id self) as [book|] eqn:F.
  - right.
    destruct (existsb _ _) eqn:E.
    + right. apply permitted_existsb in E. apply first_with_id_some in F.
      destruct F as (pre & post & L & Hb & Hpre).
      exists pre, book, post. repeat split; try assumption.
      rewrite L, assign_status_at by (now apply (before_differs book_id)).
      reflexivity.
    + left. exists book. repeat split.
      intros P. apply permitted_existsb in P.
      unfold Book.valid_statuses in P. congruence.
  - left. now split.
Qed.

(** ** Book: the dict form *)

(** C8.  For every record [r], [from_dict (to_dict r)] is [r] again, field by
    field: the dict has exactly the five keys id, title, author, year and
    status, each holding the field of that name, and [from_dict] restores
    all five. *)
Theorem from_dict_to_dict (r : Book.t) :
  (exists items,
     Book.to_dict r = JDict items /\
     map fst items = ["id"; "title"; "author"; "year"; "status"]) /\
  getitem (Book.to_dict r) "id" = Ok (of_int (Book.id r)) /\
  getitem (Book.to_dict r) "title" = Ok (JStr (Book.title r)) /\
  getitem (Book.to_dict r) "author" = Ok (JStr (Book.author r)) /\
  getitem (Book.to_dict r) "year" = Ok (of_int (Book.year r)) /\
  getitem (Book.to_dict r) "status" = Ok (JStr (Book.status r)) /\
  (exists r', Book.from_dict (Book.to_dict r) = Ok r' /\
     Book.id r' = Book.id r /\ Book.title r' = Book.title r /\
     Book.author r' = Book.author r /\ Book.year r' = Book.year r /\
     Book.status r' = Book.status r).
Proof.
  split; [|repeat split; try reflexivity].
  - eexists. split; reflexivity.
  - exists r. rewrite from_dict_to_dict_eq. repeat split.
Qed.

(** ** Library: loading and saving *)

(** C4.  A file that holds a valid book followed by a number does not load:
    [validate_dict] asks whether "id" is in the number and the [TypeError]
    is not caught, where the claim has the entry skipped with a diagnostic
    and the valid book returned. *)
Theorem load_books_number_entry :
  Library.load_books
    (Library.Document
       (JList [JDict [("id", JInt 1); ("title", JStr "Valid Book");
                      ("author", JStr "a3"); ("year", JInt 2003);
                      ("status", JStr "в наличии")];
               JInt 5])) = Raise TypeError.
Proof. reflexivity. Qed.

(** The files [load_books] is written for: a missing file and an undecodable
    file load as the empty list, the second with a diagnostic, and a list of
    dicts loads as its accepted entries in file order, with a diagnostic for
    each of the others. *)
Lemma load_books_expected_shapes :
  Library.load_books Library.NoFile = Ok ([], []) /\
  Library.load_books Library.Garbled =
    Ok ([], [Library.Text Library.msg_read_error]) /\
  forall entries, forallb is_dict entries = true ->
    exists books,
      Library.load_books (Library.Document (JList entries)) =
        Ok (books,
            map Library.InvalidEntry
                (filter (fun e => negb (valid e)) entries)) /\
      Forall2 (fun e book => Book.from_dict e = Ok book)
              (filter valid entries) books.
Proof.
  repeat split. intros entries H. simpl. now apply load_loop_dicts.
Qed.

(** C7.  When every record of the catalogue has one of the two permitted
    statuses (its id and year are integers and its title and author strings
    by the type of the record), saving and then loading the file, or
    building a fresh Library on it, gives back the same list of records, in
    the same order, with nothing printed. *)
Theorem save_then_load (self : Library.t)
  (H : Forall (fun book => Spec.permitted (Book.status book))
              (Library.books self)) :
  let file := Library.data_file (Library._save_books self) in
  Library.load_books file = Ok (Library.books self, []) /\
  forall out,
    Library.__init__ file out = Ok (Library.mk (Library.books self) file out).
Proof.
  assert (L : Library.load_books
                (Library.data_file (Library._save_books self)) =
              Ok (Library.books self, [])).
  { simpl. apply (load_loop_saved _ [] []).
    revert H. apply Forall_impl. intros b. apply accepted_permitted. }
  split; [exact L|].
  intros out. unfold Library.__init__. cbv zeta. rewrite L. simpl.
  now rewrite app_nil_r.
Qed.

(** The catalogue [two_books] meets the hypothesis, and is read back as it
    was saved. *)
Lemma save_then_load_two_books :
  Forall (fun book => Spec.permitted (Book.status book))
         (Library.books two_books) /\
  Library.load_books (Library.data_file (Library._save_books two_books)) =
    Ok (Library.books two_books, []).
Proof.
  assert (H : Forall (fun book => Spec.permitted (Book.status book))
                     (Library.books two_books)).
  { simpl. apply Forall_cons; [right; reflexivity|].
    apply Forall_cons; [left; reflexivity|]. apply Forall_nil. }
  split; [exact H | exact (proj1 (save_then_load two_books H))].
Defined.

(** Without the hypothesis on the status the record is lost: a book built
    with another status is written, and rejected when the file is read. *)
Example save_then_load_other_status :
  Library.load_books
    (Library.data_file
       (Library._save_books
          (Library.mk [Book.mk (PInt 1) "t" "a" (PInt 2000) "lost"]
                      Library.NoFile []))) =
  Ok ([], [Library.InvalidEntry
             (Book.to_dict (Book.mk (PInt 1) "t" "a" (PInt 2000) "lost"))]).
Proof. reflexivity. Qed.

(** ** Library: the operations *)

Lemma greatest_id_max (l : list Book.t) :
  Spec.greatest_id l (int_val (Py.max (map Book.id l) (PInt 0))).
Proof.
  destruct l as [|x l]; [reflexivity|].
  unfold Spec.greatest_id, Spec.id_of. split.
  - rewrite <- (map_map Book.id int_val). apply in_map.
    apply max_member. discriminate.
  - apply Forall_forall. intros y Hy. apply max_upper. now apply in_map.
Qed.

(** C3.  [add_book] gives the new record the greatest id of the collection
    (0 when it is empty) plus 1 and the status "в наличии", appends it after
    the existing records, which stay as they are and where they are, writes
    the file, and returns the record. *)
Theorem add_book_spec (title author : string) (year : pyint)
        (self : Library.t) :
  exists m new_book,
    Spec.greatest_id (Library.books self) m /\
    new_book = Book.mk (PInt (m + 1)) title author year "в наличии" /\
    Library.add_book title author year self =
      (new_book,
       Library.mk
         (Library.books self ++ [new_book])
         (Library.Document
            (JList (map Book.to_dict (Library.books self ++ [new_book]))))
         (Library.stdout self ++
          [Library.Text (Library.msg_added title (PInt (m + 1)))])).
Proof.
  exists (int_val (Py.max (map Book.id (Library.books self)) (PInt 0))).
  eexists. split; [apply greatest_id_max|]. split; reflexivity.
Qed.

(** C10.  [find_book_by_id] returns the first record, in collection order,
    whose id equals the one asked for, also when several records share it,
    and [None] exactly when no record has it. *)
Theorem find_book_by_id_first (book_id : pyint) (self : Library.t) :
  (Library.find_book_by_id book_id self = None <->
   forall book, In book (Library.books self) ->
                Spec.id_of book <> int_val book_id) /\
  (forall book,
     Library.find_book_by_id book_id self = Some book <->
     exists pre post,
       Library.books self = pre ++ book :: post /\
       Spec.id_of book = int_val book_id /\
       Forall (fun x => Spec.id_of x <> int_val book_id) pre).
Proof.
  unfold Library.find_book_by_id. split.
  - rewrite first_with_id_none. apply Forall_forall.
  - intros book. apply first_with_id_some.
Qed.

(** C5.  [update_status] with an id no record has, or with a status other
    than "в наличии" and "выдана", prints its failure message and leaves
    the collection and the file as they were; with the id of a record and a
    permitted status it replaces the status of the first record with that
    id and nothing else: the other four fields of the record, every other
    record and the order stay. *)
Theorem update_status_frame (book_id : pyint) (new_status : string)
        (self : Library.t) :
  let self' := Library.update_status book_id new_status self in
  let present :=
    exists book, In book (Library.books self) /\
                 Spec.id_of book = int_val book_id in
  (~ present ->
   self' = Library.mk (Library.books self) (Library.data_file self)
             (Library.stdout self ++
              [Library.Text (Library.msg_not_found book_id)])) /\
  (present -> ~ Spec.permitted new_status ->
   self' = Library.mk (Library.books self) (Library.data_file self)
             (Library.stdout self ++ [Library.Text Library.msg_bad_status])) /\
  (present -> Spec.permitted new_status ->
   exists pre book post,
     Library.books self = pre ++ book :: post /\
     Spec.id_of book = int_val book_id /\
     Forall (fun x => Spec.id_of x <> int_val book_id) pre /\
     Library.books self' =
       pre ++ Book.mk (Book.id book) (Book.title book) (Book.author book)
                      (Book.year book) new_status :: post /\
     Library.data_file self' =
       Library.Document (JList (map Book.to_dict (Library.books self'))) /\
     Library.stdout self' =
       Library.stdout self ++
       [Library.Text (Library.msg_status_changed book_id new_status)]).
Proof.
  intros self' present.
  assert (A : Library.find_book_by_id book_id self = None -> ~ present).
  { intros F (book & Hin & Hid).
    apply first_with_id_none in F. rewrite Forall_forall in F.
    now apply (F book). }
  assert (B : forall pre book post,
             Library.books self = pre ++ book :: post ->
             Spec.id_of book = int_val book_id -> present).
  { intros pre book post L Hid. exists book. split; [|assumption].
    rewrite L. apply in_elt. }
  subst self'.
  destruct (update_status_cases book_id new_status self)
    as [(F & ->) | [(book & F & P & ->) | (pre & book & post & L & Hid & Hpre & P & ->)]].
  - repeat split; try reflexivity; intros; now elim (A F).
  - repeat split; try reflexivity; intros; contradiction || idtac.
    apply first_with_id_some in F. destruct F as (pre & post & L & Hid & _).
    elim H. now apply (B pre book post).
  - repeat split; intros; try contradiction.
    + elim H. now apply (B pre book post).
    + exists pre, book, post. repeat split; assumption.
Qed.

(** C9 as stated fails: on an empty catalogue [find_books()] returns [None],
    the absent value, not an empty list. *)
Lemma find_books_empty_is_none :
  Library.find_books None (Library.mk [] Library.NoFile []) <> Some [].
Proof. discriminate. Qed.

(** C9, amended.  [find_books()] returns the whole collection, in insertion
    order, when the catalogue holds a record, and [None] when it holds
    none. *)
Theorem find_books_all (self : Library.t) :
  (Library.books self <> [] /\
   Library.find_books None self = Some (Library.books self)) \/
  (Library.books self = [] /\ Library.find_books None self = None).
Proof.
  unfold Library.find_books, Library.or_books.
  destruct (Library.books self); [right | left]; split;
    reflexivity || discriminate.
Qed.



Lemma display_lines (l : list Book.t) (self : Library.t) :
  fold_left
    (fun self book => Library.print (Library.Text (Library.msg_book book)) self)
    l self =
  Library.mk (Library.books self) (Library.data_file self)
    (Library.stdout self ++
     map (fun book => Library.Text (Library.msg_book book)) l).
Proof.
  revert self. induction l as [|x l IH]; intros self; simpl.
  - rewrite app_nil_r. now destruct self.
  - rewrite IH. unfold Library.print. simpl. now rewrite <- app_assoc.
Qed.


(** ** Sequences of mutating calls *)

Lemma step_change (c : Library.call) (self : Library.t) :
  exists r self',
    Library.step c self = Ok (r, self') /\ change self r (Library.books self').
Proof.
  destruct c as [title author year | book_id | book_id new_status]; simpl.
  - do 2 eexists. split; [reflexivity|]. simpl. now constructor.
  - destruct (delete_book_cases book_id self)
      as [(_ & ->) | (pre & book & post & L & _ & _ & ->)]; simpl;
      do 2 eexists; (split; [reflexivity|]); simpl.
    + constructor.
    + now apply (change_drop self pre post book).
  - do 2 eexists. split; [reflexivity|].
    destruct (update_status_cases book_id new_status self)
      as [(_ & ->) | [(book & _ & _ & ->) | (pre & book & post & L & _ & _ & P & ->)]];
      simpl.
    + constructor.
    + constructor.
    + now apply (change_status self pre post book).
Qed.

Lemma max_id_upper (self : Library.t) (book : Book.t) :
  In book (Library.books self) -> Spec.id_of book <= Spec.max_id self.
Proof.
  intros H. unfold Spec.id_of, Spec.max_id. apply max_upper. now apply in_map.
Qed.

Lemma max_id_positive (self : Library.t) :
  Forall (fun book => 0 < Spec.id_of book) (Library.books self) ->
  0 <= Spec.max_id self.
Proof.
  intros H. pose proof (greatest_id_max (Library.books self)) as G.
  fold (Spec.max_id self) in G.
  destruct (Library.books self) as [|x l]; unfold Spec.greatest_id in G;
    [lia|].
  destruct G as [G _]. apply in_map_iff in G. destruct G as (y & <- & Hy).
  rewrite Forall_forall in H. specialize (H y Hy). lia.
Qed.

Lemma change_accepted (self : Library.t) (r : option Book.t)
      (l : list Book.t) :
  change self r l -> Forall Spec.accepted (Library.books self) ->
  Forall Spec.accepted l.
Proof.
  intros [new_book Hid Hst | | pre post book L | pre post book st L P] A.
  - apply Forall_app. split; [assumption|]. constructor; [|constructor].
    apply accepted_permitted. rewrite Hst. now left.
  - assumption.
  - rewrite L in A. apply Forall_app in A. destruct A as [A1 A2].
    apply Forall_app. split; [assumption | now inversion A2].
  - rewrite L in A. apply Forall_app in A. destruct A as [A1 A2].
    apply Forall_app. split; [assumption|]. inversion A2; subst.
    constructor; [|assumption]. now apply accepted_permitted.
Qed.

Lemma change_positive (self : Library.t) (r : option Book.t)
      (l : list Book.t) :
  change self r l ->
  Forall (fun book => 0 < Spec.id_of book) (Library.books self) ->
  Forall (fun book => 0 < Spec.id_of book) l.
Proof.
  intros [new_book Hid Hst | | pre post book L | pre post book st L P] A.
  - apply Forall_app. split; [assumption|]. constructor; [|constructor].
    pose proof (max_id_positive self A). lia.
  - assumption.
  - rewrite L in A. apply Forall_app in A. destruct A as [A1 A2].
    apply Forall_app. split; [assumption | now inversion A2].
  - rewrite L in A. apply Forall_app in A. destruct A as [A1 A2].
    apply Forall_app. split; [assumption|]. inversion A2; subst.
    now constructor.
Qed.

Lemma change_unique (self : Library.t) (r : option Book.t)
      (l : list Book.t) :
  change self r l -> Spec.unique_ids (Library.books self) ->
  Spec.unique_ids l.
Proof.
  unfold Spec.unique_ids.
  intros [new_book Hid Hst | | pre post book L | pre post book st L P] U.
  - rewrite map_app. apply NoDup_app; [assumption | |].
    + constructor; [easy | constructor].
    + intros a Ha [<-|[]]. apply in_map_iff in Ha.
      destruct Ha as (x & Hx & Hin). apply max_id_upper in Hin. lia.
  - assumption.
  - rewrite L, map_app in U. simpl in U. rewrite map_app.
    now apply NoDup_remove_1 in U.
  - rewrite L, map_app in U. now rewrite map_app.
Qed.

(** C1 as stated fails.  A file with the same entry twice, its id 0 and its
    title and author empty, loads as two records that break the rule and
    share an id; and [add_book] takes an empty title and author. *)
Lemma catalog_invariant_fails :
  Library.load_books
    (Library.Document
       (JList [JDict [("id", JInt 0); ("title", JStr ""); ("author", JStr "");
                      ("year", JInt 0); ("status", JStr "выдана")];
               JDict [("id", JInt 0); ("title", JStr ""); ("author", JStr "");
                      ("year", JInt 0); ("status", JStr "выдана")]])) =
    Ok ([Book.mk (PInt 0) "" "" (PInt 0) "выдана";
         Book.mk (PInt 0) "" "" (PInt 0) "выдана"], []) /\
  ~ Forall Spec.record_rule
      [Book.mk (PInt 0) "" "" (PInt 0) "выдана";
       Book.mk (PInt 0) "" "" (PInt 0) "выдана"] /\
  ~ Spec.unique_ids
      [Book.mk (PInt 0) "" "" (PInt 0) "выдана";
       Book.mk (PInt 0) "" "" (PInt 0) "выдана"] /\
  ~ Spec.catalog_invariant
      (Library.books
         (snd (Library.add_book "" "" (PInt 2024)
                 (Library.mk [] Library.NoFile [])))).
Proof.
  split; [reflexivity|]. split; [|split].
  - intros H. inversion H as [|x l [H0 _] _]; subst.
    unfold Spec.id_of in H0. simpl in H0. lia.
  - intros H. inversion H as [|x l Hx _]; subst. apply Hx. now left.
  - intros [H _]. inversion H as [|x l (_ & Ht & _) _]; subst. now apply Ht.
Qed.

(** C1, amended.  After a successful load, and after any of [add_book],
    [delete_book] and [update_status] on a catalogue where it held before,
    every record passes what [validate_dict] checks: id and year integers,
    title and author strings, status one of the two permitted values.  The
    three calls always return, and they keep the ids positive when they were
    positive and distinct when they were distinct. *)
Theorem catalog_checked_invariant :
  (forall file books out,
     Library.load_books file = Ok (books, out) ->
     Forall Spec.accepted books) /\
  (forall c self,
     Forall Spec.accepted (Library.books self) ->
     exists r self',
       Library.step c self = Ok (r, self') /\
       Forall Spec.accepted (Library.books self') /\
       (Forall (fun book => 0 < Spec.id_of book) (Library.books self) ->
        Forall (fun book => 0 < Spec.id_of book) (Library.books self')) /\
       (Spec.unique_ids (Library.books self) ->
        Spec.unique_ids (Library.books self'))).
Proof.
  split.
  - apply load_books_accepted.
  - intros c self A. destruct (step_change c self) as (r & self' & S & C).
    exists r, self'. split; [assumption|]. split; [|split].
    + now apply (change_accepted self r).
    + now apply (change_positive self r).
    + now apply (change_unique self r).
Qed.

Lemma step_added (c : Library.call) (self self' : Library.t) (book : Book.t) :
  Library.step c self = Ok (Some book, self') ->
  Spec.id_of book = Spec.max_id self + 1 /\
  Spec.id_of book <= Spec.max_id self'.
Proof.
  destruct c as [title author year | book_id | book_id new_status]; simpl.
  - intros [= <- <-]. split; [reflexivity|].
    apply max_id_upper. simpl. apply in_elt.
  - destruct (Library.delete_book book_id self); simpl; discriminate.
  - discriminate.
Qed.

Lemma run_total (calls : list Library.call) (self : Library.t) :
  exists ids self', Library.run calls self = Ok (ids, self').
Proof.
  revert self. induction calls as [|c calls IH]; intros self; simpl.
  - now do 2 eexists.
  - destruct (step_change c self) as (r & s1 & -> & _). simpl.
    destruct (IH s1) as (ids & s2 & ->). simpl. now do 2 eexists.
Qed.

Lemma run_sorted (calls : list Library.call) (self self' : Library.t)
      (ids : list pyint) :
  Spec.max_kept calls self = true ->
  Library.run calls self = Ok (ids, self') ->
  Forall (fun i => Spec.max_id self < i) (map int_val ids) /\
  StronglySorted Z.lt (map int_val ids).
Proof.
  revert self ids. induction calls as [|c calls IH]; intros self ids; simpl.
  - intros _ [= <- <-]. split; constructor.
  - destruct (Library.step c self) as [[r s1]|e|] eqn:S; try discriminate.
    rewrite andb_true_iff, Z.leb_le. intros [Hle K]. simpl.
    destruct (Library.run calls s1) as [[ids1 s2]|e|] eqn:R; try discriminate.
    simpl. intros [= <- <-].
    destruct (IH s1 ids1 K R) as [F1 S1].
    assert (F : Forall (fun i => Spec.max_id self < i) (map int_val ids1))
      by (revert F1; apply Forall_impl; intros; lia).
    destruct r as [book|]; [|now split].
    destruct (step_added c self s1 book S) as [Hid Hup].
    unfold Spec.id_of in Hid, Hup. cbn [map]. split.
    + constructor; [lia | assumption].
    + constructor; [assumption|].
      revert F1. apply Forall_impl. intros; lia.
Qed.

Lemma sorted_distinct (l : list Z) : StronglySorted Z.lt l -> NoDup l.
Proof.
  induction 1 as [|x l _ IH F]; constructor; [|assumption].
  intros Hin. rewrite Forall_forall in F. specialize (F x Hin). lia.
Qed.

Lemma adds_keep_max (calls : list Library.call) (self : Library.t) :
  forallb Spec.is_add calls = true -> Spec.max_kept calls self = true.
Proof.
  revert self. induction calls as [|c calls IH]; intros self;
    cbn [forallb Spec.max_kept]; [reflexivity|].
  rewrite andb_true_iff. intros [Hc H].
  destruct c as [title author year | |]; try discriminate.
  assert (S : Library.step (Library.Add title author year) self =
              Ok (Some (fst (Library.add_book title author year self)),
                  snd (Library.add_book title author year self)))
    by reflexivity.
  rewrite S. destruct (step_added _ _ _ _ S) as [Hid Hup].
  rewrite IH by assumption. rewrite andb_true_r. apply Z.leb_le. lia.
Qed.

(** The new book of [add_book] has an id no book of the list has, so a search
    for that id walks past the whole list. *)
Lemma add_book_fresh (title author : string) (year : pyint)
      (self : Library.t) :
  Forall (fun x =>
            Spec.id_of x <>
            int_val (Book.id (fst (Library.add_book title author year self))))
         (Library.books self).
Proof.
  apply Forall_forall. intros x Hin. apply max_id_upper in Hin.
  simpl. fold (Spec.max_id self). lia.
Qed.

Lemma find_after_add (title author : string) (year : pyint)
      (self : Library.t) :
  Library.find_book_by_id
    (Book.id (fst (Library.add_book title author year self)))
    (snd (Library.add_book title author year self)) =
  Some (fst (Library.add_book title author year self)).
Proof.
  unfold Library.find_book_by_id. apply first_with_id_some.
  exists (Library.books self), []. split; [reflexivity|].
  split; [reflexivity | apply add_book_fresh].
Qed.

(** Deleting the id [add_book] has just given takes out the new book and
    leaves the list as it was before the two calls. *)
Lemma delete_after_add (title author : string) (year : pyint)
      (self : Library.t) :
  exists self',
    Library.delete_book
      (Book.id (fst (Library.add_book title author year self)))
      (snd (Library.add_book title author year self)) = Ok self' /\
    Library.books self' = Library.books self.
Proof.
  unfold Library.delete_book. rewrite find_after_add.
  change (Library.books (snd (Library.add_book title author year self)))
    with (Library.books self ++
          [fst (Library.add_book title author year self)]).
  rewrite list_remove_at.
  - eexists. split; [reflexivity|]. simpl. apply app_nil_r.
  - apply (before_differs
             (Book.id (fst (Library.add_book title author year self))));
      [reflexivity | apply add_book_fresh].
Qed.

(** C2 as stated fails.  Add, delete the record just added, add again: both
    [add_book] calls return the id 1, so the ids neither increase nor
    differ, and the deleted id is assigned a second time. *)
Lemma deleted_id_assigned_again :
  exists self',
    Library.run [Library.Add "Title 1" "Author 1" (PInt 2024);
                 Library.Delete (PInt 1);
                 Library.Add "Title 2" "Author 2" (PInt 2023)]
                (Library.mk [] Library.NoFile []) =
      Ok ([PInt 1; PInt 1], self') /\
    ~ StronglySorted Z.lt (map int_val [PInt 1; PInt 1]) /\
    ~ NoDup (map int_val [PInt 1; PInt 1]).
Proof.
  eexists. split; [reflexivity|]. split.
  - intros H. apply sorted_distinct in H. inversion H as [|x l Hx _]; subst.
    apply Hx. now left.
  - intros H. inversion H as [|x l Hx _]; subst. apply Hx. now left.
Qed.

(** C2, amended.  From any catalogue state, [add_book] returns an id greater
    than the id of every record in the collection at that moment.  The ids
    the [add_book] calls of a sequence of calls return are strictly
    increasing, hence distinct, when no call of the sequence lowers the
    greatest id of the collection, as is the case when the sequence holds
    [add_book] calls only.  A deleted id can be assigned again: from any
    state, [add_book], then [delete_book] with the id just returned, then
    [add_book] return the same id twice. *)
Theorem add_ids_increase :
  (forall title author year self,
     Forall (fun book =>
               Spec.id_of book <
               Spec.id_of (fst (Library.add_book title author year self)))
            (Library.books self)) /\
  (forall calls self,
     exists ids self',
       Library.run calls self = Ok (ids, self') /\
       (Spec.max_kept calls self = true ->
        StronglySorted Z.lt (map int_val ids) /\ NoDup (map int_val ids))) /\
  (forall calls self,
     forallb Spec.is_add calls = true -> Spec.max_kept calls self = true) /\
  (forall title author year title' author' year' self,
     exists self',
       Library.run [Library.Add title author year;
                    Library.Delete (PInt (Spec.max_id self + 1));
                    Library.Add title' author' year'] self =
       Ok ([PInt (Spec.max_id self + 1); PInt (Spec.max_id self + 1)], self')).
Proof.
  split; [|split; [|split]].
  - intros title author year self. apply Forall_forall. intros book Hin.
    apply max_id_upper in Hin. unfold Spec.id_of at 2. simpl.
    fold (Spec.max_id self). lia.
  - intros calls self. destruct (run_total calls self) as (ids & self' & R).
    exists ids, self'. split; [assumption|]. intros K.
    destruct (run_sorted calls self self' ids K R) as [_ S].
    split; [assumption | now apply sorted_distinct].
  - apply adds_keep_max.
  - intros title author year title' author' year' self.
    destruct (delete_after_add title author year self) as (s2 & D & B).
    change (Book.id (fst (Library.add_book title author year self)))
      with (PInt (Spec.max_id self + 1)) in D.
    cbn [Library.run]. unfold Library.step at 1. cbv zeta.
    change (Library.add_book title author year self)
      with (fst (Library.add_book title author year self),
            snd (Library.add_book title author year self)).
    cbv iota beta. cbn [Py.bind fst snd].
    unfold Library.step at 1. rewrite D. cbn [Py.bind fst snd].
    unfold Library.step, Library.add_book. cbv zeta. cbn [Py.bind fst snd].
    rewrite B. eexists. reflexivity.
Qed.

(** ** The tests of test.py and the scenario of the specification, run *)

Example test_add_book :
  Library.books
    (snd (Library.add_book "Test Title" "Test Author" (PInt 2024) first_run)) =
  [Book.mk (PInt 1) "Test Title" "Test Author" (PInt 2024) "в наличии"].
Proof. reflexivity. Qed.

Example test_remove_book :
  let '(book, library) :=
    Library.add_book "Test Title" "Test Author" (PInt 2024) first_run in
  exists library',
    Library.delete_book (Book.id book) library = Ok library' /\
    Library.books library' = [].
Proof. eexists. split; reflexivity. Qed.

Example test_remove_nonexistent_book :
  let library :=
    snd (Library.add_book "Test Title" "Test Author" (PInt 2024) first_run) in
  exists library',
    Library.delete_book (PInt 999) library = Ok library' /\
    Library.books library' = Library.books library.
Proof. eexists. split; reflexivity. Qed.

Example test_update_status_invalid :
  let '(book, library) :=
    Library.add_book "Test Title" "Test Author" (PInt 2024) first_run in
  Library.books
    (Library.update_status (Book.id book) "неизвестный статус" library) =
  [book].
Proof. reflexivity. Qed.

Example test_load_invalid_books :
  Library.load_books
    (Library.Document
       (JList [JDict [("id", JInt 1); ("title", JStr "Valid Book");
                      ("author", JStr "a3"); ("year", JInt 2003);
                      ("status", JStr "в наличии")];
               JDict [("id", JInt 2)]])) =
  Ok ([Book.mk (PInt 1) "Valid Book" "a3" (PInt 2003) "в наличии"],
      [Library.InvalidEntry (JDict [("id", JInt 2)])]).
Proof. reflexivity. Qed.

Example scenario :
  let '(book1, library) :=
    Library.add_book "Title 1" "Author 1" (PInt 2024) first_run in
  let '(book2, library) :=
    Library.add_book "Title 2" "Author 2" (PInt 2023) library in
  Book.id book1 = PInt 1 /\ Book.status book1 = "в наличии" /\
  Book.id book2 = PInt 2 /\
  Library.search_results ascii_lower "2024" library = [book1] /\
  Library.search_results ascii_lower "AUTHOR" library = [book1; book2] /\
  let library := Library.update_status (PInt 1) "выдана" library in
  option_map Book.status (Library.find_book_by_id (PInt 1) library) =
    Some "выдана" /\
  exists library',
    Library.delete_book (PInt 2) library = Ok library' /\
    Library.find_books None library' =
      Some [Book.mk (PInt 1) "Title 1" "Author 1" (PInt 2024) "выдана"].
Proof. simpl. repeat split. eexists. split; reflexivity. Qed.

Example two_books_accepted : Forall Spec.accepted (Library.books two_books).
Proof. repeat constructor. Qed.

Example three_adds_after_two_books :
  exists library,
    Library.run [Library.Add "a" "x" (PInt 1); Library.Add "b" "y" (PInt 2);
                 Library.Add "c" "z" (PInt 3)] two_books =
    Ok ([PInt 3; PInt 4; PInt 5], library).
Proof. eexists. reflexivity. Qed.

(** Two records loaded with the same id: the first is the one found, the
    one re-statused and the one deleted. *)
Example shared_id :
  let first := Book.mk (PInt 7) "first" "a" (PInt 1990) "в наличии" in
  let second := Book.mk (PInt 7) "second" "b" (PInt 1991) "в наличии" in
  let library := Library.mk [first; second] Library.NoFile [] in
  Library.find_book_by_id (PInt 7) library = Some first /\
  Library.books (Library.update_status (PInt 7) "выдана" library) =
    [Book.set_status first "выдана"; second] /\
  exists library',
    Library.delete_book (PInt 7) library = Ok library' /\
    Library.books library' = [second].
Proof. repeat split. eexists. split; reflexivity. Qed.

(** [True] is an [int] for [isinstance], counts as 1 and prints as "True". *)
Example bool_id :
  exists library,
    Library.__init__
      (Library.Document
         (JList [JDict [("id", JBool true); ("title", JStr "t");
                        ("author", JStr "a"); ("year", JBool false);
                        ("status", JStr "выдана")]])) [] = Ok library /\
    Library.books library = [Book.mk (PBool true) "t" "a" (PBool false) "выдана"] /\
    Library.find_book_by_id (PInt 1) library =
      Some (Book.mk (PBool true) "t" "a" (PBool false) "выдана") /\
    Book.id (fst (Library.add_book "u" "b" (PInt 2000) library)) = PInt 2 /\
    Library.search_results ascii_lower "False" library =
      [Book.mk (PBool true) "t" "a" (PBool false) "выдана"].
Proof. eexists. repeat split. Qed.

(** ** Book: what validate_dict accepts and what from_dict raises *)

(** X1.  On a dict [validate_dict] never raises, and it returns [True]
    exactly when the five keys are there, id and year holding an int, title
    and author a str, and status one of the two permitted strings; whatever
    else the dict holds is ignored. *)
Theorem validate_dict_accepts (items : list (string * json)) :
  (exists v, Book.validate_dict (JDict items) = Ok v) /\
  (Book.validate_dict (JDict items) = Ok true <->
   exists i t a y s,
     dict_get "id" items = Some (of_int i) /\
     dict_get "title" items = Some (JStr t) /\
     dict_get "author" items = Some (JStr a) /\
     dict_get "year" items = Some (of_int y) /\
     dict_get "status" items = Some (JStr s) /\
     Spec.permitted s).
Proof.
  split; [apply validate_dict_dict|].
  unfold Book.validate_dict. rewrite check_fields_dict. split.
  - destruct (forallb _ _) eqn:E; simpl; [|discriminate].
    unfold Book.required_fields in E. simpl in E.
    rewrite !andb_true_iff in E. destruct E as (E1 & E2 & E3 & E4 & E5 & _).
    unfold field_ok in *. simpl in *.
    five_fields items.
    apply isinstance_int in E1, E4. apply isinstance_str in E2, E3, E5.
    destruct E1 as [i ->], E2 as [t ->], E3 as [a ->], E4 as [y ->],
             E5 as [s ->].
    simpl. intros H. exists i, t, a, y, s. repeat split.
    apply permitted_existsb. unfold Book.valid_statuses. simpl.
    destruct (_ || _); [reflexivity | discriminate].
  - intros (i & t & a & y & s & H1 & H2 & H3 & H4 & H5 & P).
    apply permitted_existsb in P.
    unfold Book.required_fields, field_ok. simpl.
    rewrite H1, H2, H3, H4, H5. unfold Book.valid_statuses in P.
    simpl in P. destruct i, y; simpl; now rewrite P.
Qed.

(** X2.  On a value that is not a dict [validate_dict] never returns [True]:
    [None], a bool or a number raises [TypeError]; a string or a list gives
    [False], unless "id" occurs in the string or is an element of the list,
    and then indexing it by "id" raises [TypeError]. *)
Theorem validate_dict_not_a_dict (data : json) :
  match data with
  | JDict _ => True
  | JNull | JBool _ | JInt _ | JFloat _ =>
      Book.validate_dict data = Raise TypeError
  | JStr s =>
      Book.validate_dict data =
      if str_in "id" s then Raise TypeError else Ok false
  | JList l =>
      Book.validate_dict data =
      if existsb (fun x => match x with
                           | JStr s => String.eqb s "id"
                           | _ => false
                           end) l
      then Raise TypeError else Ok false
  end.
Proof.
  destruct data; try reflexivity; unfold Book.validate_dict; simpl.
  - now destruct (str_in "id" s).
  - now destruct (existsb _ l).
Qed.

(** X3.  [from_dict] on a dict that lacks one of the five keys raises
    [KeyError] for the first key missing, in the order id, title, author,
    year, status; with the five keys present it raises nothing; on a value
    that is not a dict it raises [TypeError]. *)
Theorem from_dict_errors (data : json) :
  match data with
  | JDict items =>
      match first_missing items with
      | Some key => Book.from_dict data = Raise (KeyError key)
      | None => forall e, Book.from_dict data <> Raise e
      end
  | _ => Book.from_dict data = Raise TypeError
  end.
Proof.
  destruct data; try reflexivity.
  unfold first_missing, five_keys, Book.from_dict. simpl.
  destruct (dict_get "id" items) as [v1|]; [|reflexivity].
  destruct (dict_get "title" items) as [v2|]; [|reflexivity].
  destruct (dict_get "author" items) as [v3|]; [|reflexivity].
  destruct (dict_get "year" items) as [v4|]; [|reflexivity].
  destruct (dict_get "status" items) as [v5|]; [|reflexivity].
  simpl. intros e.
  destruct (Book.as_int v1) eqn:A1; simpl;
    [|destruct v1; discriminate | discriminate].
  destruct (Book.as_str v2) eqn:A2; simpl;
    [|destruct v2; discriminate | discriminate].
  destruct (Book.as_str v3) eqn:A3; simpl;
    [|destruct v3; discriminate | discriminate].
  destruct (Book.as_int v4) eqn:A4; simpl;
    [|destruct v4; discriminate | discriminate].
  destruct (Book.as_str v5) eqn:A5; simpl;
    [|destruct v5; discriminate | discriminate].
  discriminate.
Qed.

(** X4.  An entry [validate_dict] accepts is turned by [from_dict] into a
    record that [validate_dict] accepts in its turn, and whose dict holds
    under each of the five keys what the entry held; the other keys of the
    entry are dropped. *)
Theorem from_dict_keeps_fields (data : json)
  (H : Book.validate_dict data = Ok true) :
  exists book,
    Book.from_dict data = Ok book /\
    Spec.accepted book /\
    (forall key, In key five_keys ->
       getitem (Book.to_dict book) key = getitem data key) /\
    (forall key, ~ In key five_keys ->
       getitem (Book.to_dict book) key = Raise (KeyError key)).
Proof.
  destruct (from_dict_validated data H) as [book F].
  exists book. split; [assumption|]. split;
    [now apply (from_dict_accepted data)|].
  destruct (validate_dict_only_dicts data H) as [items ->]. split.
  - unfold Book.from_dict in F. simpl in F. unfold getitem at 2.
    destruct (dict_get "id" items) as [v1|] eqn:G1; [|discriminate].
    destruct (dict_get "title" items) as [v2|] eqn:G2; [|discriminate].
    destruct (dict_get "author" items) as [v3|] eqn:G3; [|discriminate].
    destruct (dict_get "year" items) as [v4|] eqn:G4; [|discriminate].
    destruct (dict_get "status" items) as [v5|] eqn:G5; [|discriminate].
    simpl in F.
    destruct v1; try discriminate; destruct v2; try discriminate;
      destruct v3; try discriminate; destruct v4; try discriminate;
      destruct v5; try discriminate; simpl in F; injection F as <-;
      intros key [<-|[<-|[<-|[<-|[<-|[]]]]]]; simpl;
      rewrite ?G1, ?G2, ?G3, ?G4, ?G5; reflexivity.
  - intros key K. unfold five_keys in K. simpl in K.
    unfold Book.to_dict, getitem. cbn [dict_get].
    destruct (String.eqb_spec "id" key) as [E|_]; [tauto|].
    destruct (String.eqb_spec "title" key) as [E|_]; [tauto|].
    destruct (String.eqb_spec "author" key) as [E|_]; [tauto|].
    destruct (String.eqb_spec "year" key) as [E|_]; [tauto|].
    destruct (String.eqb_spec "status" key) as [E|_]; [tauto|].
    reflexivity.
Qed.

(** The dict of the test of test.py is accepted and read back. *)
Lemma from_dict_keeps_fields_valid_book :
  exists book,
    Book.from_dict
      (JDict [("id", JInt 1); ("title", JStr "Valid Book");
              ("author", JStr "a3"); ("year", JInt 2003);
              ("status", JStr "в наличии"); ("pages", JInt 100)]) = Ok book /\
    Spec.accepted book.
Proof.
  destruct (from_dict_keeps_fields
              (JDict [("id", JInt 1); ("title", JStr "Valid Book");
                      ("author", JStr "a3"); ("year", JInt 2003);
                      ("status", JStr "в наличии"); ("pages", JInt 100)])
              eq_refl) as (book & F & A & _).
  exists book. split; assumption.
Defined.

(** ** load_books: what a successful load holds and which files fail *)

Lemma valid_true (raw : json) :
  valid raw = true <-> Book.validate_dict raw = Ok true.
Proof.
  unfold valid. destruct (Book.validate_dict raw) as [[|]|e|];
    split; congruence.
Qed.

Lemma load_loop_success (entries : list json) (books : list Book.t)
      (out : list Library.line) :
  Library.load_loop entries [] [] = Ok (books, out) ->
  out = map Library.InvalidEntry (filter (fun e => negb (valid e)) entries) /\
  Forall2 (fun e book => Book.from_dict e = Ok book)
          (filter valid entries) books.
Proof.
  revert books out. induction entries as [|raw entries IH]; intros books out.
  - simpl. intros [= <- <-]. split; [reflexivity | constructor].
  - cbn [Library.load_loop filter].
    assert (Hv : valid raw = match Book.validate_dict raw with
                             | Ok true => true
                             | _ => false
                             end) by reflexivity.
    destruct (Book.validate_dict raw) as [[|]|e|] eqn:V; rewrite Hv; simpl;
      try discriminate.
    + destruct (Book.from_dict raw) as [b|e|] eqn:B; simpl; try discriminate.
      rewrite load_loop_acc.
      destruct (Library.load_loop entries [] []) as [[bs o]|e|];
        try discriminate.
      simpl. intros [= <- <-]. destruct (IH bs o eq_refl) as [-> F].
      split; [reflexivity | now constructor].
    + rewrite load_loop_acc.
      destruct (Library.load_loop entries [] []) as [[bs o]|e|];
        try discriminate.
      simpl. intros [= <- <-]. destruct (IH bs o eq_refl) as [-> F].
      split; [reflexivity | assumption].
Qed.

Lemma filter_partition_length {A : Type} (f : A -> bool) (l : list A) :
  (List.length (filter f l) + List.length (filter (fun x => negb (f x)) l))%nat =
  List.length l.
Proof.
  induction l as [|x l IH]; simpl; [reflexivity|].
  destruct (f x); simpl; lia.
Qed.

(** X5.  When a list of entries loads, every entry is accounted for: the
    books are the entries [validate_dict] accepted, read by [from_dict], in
    file order; the diagnostics are the other entries, in file order; so
    books and diagnostics together are as many as the entries. *)
Theorem load_books_accounts_for_entries (entries : list json)
        (books : list Book.t) (out : list Library.line)
  (H : Library.load_books (Library.Document (JList entries)) = Ok (books, out)) :
  Forall2 (fun e book => Book.from_dict e = Ok book)
          (filter valid entries) books /\
  out = map Library.InvalidEntry (filter (fun e => negb (valid e)) entries) /\
  (List.length books + List.length out)%nat = List.length entries.
Proof.
  simpl in H. destruct (load_loop_success entries books out H) as [-> F].
  split; [assumption|]. split; [reflexivity|].
  rewrite List.length_map, <- (Forall2_length F). apply filter_partition_length.
Qed.

Lemma load_books_accounts_for_test_file :
  (List.length [Book.mk (PInt 1) "Valid Book" "a3" (PInt 2003) "в наличии"] +
   List.length [Library.InvalidEntry (JDict [("id", JInt 2)])])%nat = 2%nat.
Proof.
  exact (proj2 (proj2
    (load_books_accounts_for_entries
       [JDict [("id", JInt 1); ("title", JStr "Valid Book");
               ("author", JStr "a3"); ("year", JInt 2003);
               ("status", JStr "в наличии")];
        JDict [("id", JInt 2)]]
       [Book.mk (PInt 1) "Valid Book" "a3" (PInt 2003) "в наличии"]
       [Library.InvalidEntry (JDict [("id", JInt 2)])]
       eq_refl))).
Defined.

Lemma validate_dict_scalar (x : json) :
  is_scalar x = true -> Book.validate_dict x = Raise TypeError.
Proof. destruct x; try discriminate; reflexivity. Qed.

(** X6.  A list in which dicts are followed by [None], a bool or a number
    does not load: [load_books] raises [TypeError] at that entry, whatever
    the dicts before it and the entries after it are. *)
Theorem load_books_scalar_entry (pre post : list json) (x : json)
  (Hpre : forallb is_dict pre = true) (Hx : is_scalar x = true) :
  Library.load_books (Library.Document (JList (pre ++ x :: post))) =
  Raise TypeError.
Proof.
  simpl. generalize (@nil Book.t) (@nil Library.line).
  induction pre as [|raw pre IH]; intros acc out; simpl.
  - now rewrite (validate_dict_scalar x Hx).
  - simpl in Hpre. apply andb_true_iff in Hpre. destruct Hpre as [Hd Hpre].
    destruct raw; try discriminate.
    destruct (validate_dict_dict items) as [[|] V]; rewrite V; simpl.
    + destruct (from_dict_validated _ V) as [b ->]. simpl. now apply IH.
    + now apply IH.
Qed.

Lemma load_books_scalar_entry_null :
  Library.load_books
    (Library.Document
       (JList ([JDict [("id", JInt 2)]] ++ JNull :: [JStr "after"]))) =
  Raise TypeError.
Proof.
  exact (load_books_scalar_entry [JDict [("id", JInt 2)]] [JStr "after"] JNull
                                 eq_refl eq_refl).
Defined.

Lemma load_loop_no_dict (entries : list json) (acc books : list Book.t)
      (out o : list Library.line) :
  forallb (fun e => negb (is_dict e)) entries = true ->
  Library.load_loop entries acc out = Ok (books, o) -> books = acc.
Proof.
  revert acc out. induction entries as [|raw entries IH]; intros acc out; simpl.
  - intros _ [= <- <-]. reflexivity.
  - rewrite andb_true_iff. intros [Hd H].
    destruct (Book.validate_dict raw) as [[|]|e|] eqn:V; simpl;
      try discriminate.
    + destruct (validate_dict_only_dicts raw V) as [items ->]. discriminate.
    + now apply IH.
Qed.

(** X7.  [load_books] builds books from a list only.  A document that is a
    dict or a string is iterated over its keys or characters, none of which
    [validate_dict] accepts, so if it loads at all it loads as no book; a
    document that is [None], a bool or a number raises [TypeError]. *)
Theorem load_books_not_a_list (data : json) :
  match data with
  | JList _ => True
  | JDict _ | JStr _ =>
      forall books out,
        Library.load_books (Library.Document data) = Ok (books, out) ->
        books = []
  | JNull | JBool _ | JInt _ | JFloat _ =>
      Library.load_books (Library.Document data) = Raise TypeError
  end.
Proof.
  destruct data; try reflexivity; try exact I; intros books out; simpl.
  - apply load_loop_no_dict. induction (chars s); [reflexivity | assumption].
  - apply load_loop_no_dict. induction items; [reflexivity | assumption].
Qed.

(** ** Library: how the operations compose *)

(** X8.  The book [add_book] returns is the one [find_book_by_id] finds under
    its id right after, in every catalogue state, also one that holds
    repeated ids. *)
Theorem add_then_find (title author : string) (year : pyint)
        (self : Library.t) :
  exists book self',
    Library.add_book title author year self = (book, self') /\
    Library.find_book_by_id (Book.id book) self' = Some book.
Proof.
  exists (fst (Library.add_book title author year self)),
         (snd (Library.add_book title author year self)).
  split; [reflexivity | apply find_after_add].
Qed.

(** X9.  Deleting the book just added, by the id [add_book] gave it, puts
    the list of books back as it was before the two calls, and the file
    holds that list. *)
Theorem add_then_delete (title author : string) (year : pyint)
        (self : Library.t) :
  exists book self' self'',
    Library.add_book title author year self = (book, self') /\
    Library.delete_book (Book.id book) self' = Ok self'' /\
    Library.books self'' = Library.books self /\
    saved self''.
Proof.
  exists (fst (Library.add_book title author year self)),
         (snd (Library.add_book title author year self)).
  unfold Library.delete_book. rewrite find_after_add.
  change (Library.books (snd (Library.add_book title author year self)))
    with (Library.books self ++
          [fst (Library.add_book title author year self)]).
  rewrite list_remove_at.
  - eexists. split; [reflexivity|]. split; [reflexivity|].
    unfold saved. simpl. rewrite app_nil_r. split; reflexivity.
  - apply (before_differs
             (Book.id (fst (Library.add_book title author year self))));
      [reflexivity | apply add_book_fresh].
Qed.

(** X10.  The book [delete_book] hands to [list.remove] is in the list, so
    that call raises no [ValueError].  When [delete_book] returns, either no
    book had the id, and it has printed the not-found message and touched
    neither list nor file; or it has taken out the first book with the id
    and no other, kept the rest in order, written the file from the new
    list and printed the confirmation. *)
Theorem delete_book_removes_first (book_id : pyint) (self : Library.t) :
  (forall book,
     Library.find_book_by_id book_id self = Some book ->
     exists l, list_remove Book.eqb book (Library.books self) = Ok l) /\
  (forall self',
     Library.delete_book book_id self = Ok self' ->
     (Library.find_book_by_id book_id self = None /\
      self' = Library.mk (Library.books self) (Library.data_file self)
                (Library.stdout self ++
                 [Library.Text (Library.msg_not_found book_id)])) \/
     (exists pre book post,
        Library.find_book_by_id book_id self = Some book /\
        Library.books self = pre ++ book :: post /\
        Forall (fun x => Spec.id_of x <> int_val book_id) pre /\
        self' = Library.mk (pre ++ post)
                  (Library.Document (JList (map Book.to_dict (pre ++ post))))
                  (Library.stdout self ++
                   [Library.Text (Library.msg_deleted book_id)]) /\
        List.length (Library.books self) = S (List.length (pre ++ post)))).
Proof.
  split.
  - intros book F. apply first_with_id_some in F.
    destruct F as (pre & post & L & Hid & Hpre).
    exists (pre ++ post). rewrite L. apply list_remove_at.
    now apply (before_differs book_id).
  - intros self' D.
    destruct (delete_book_cases book_id self)
      as [(F & E) | (pre & book & post & L & Hid & Hpre & E)];
      rewrite E in D; injection D as <-.
    + left. now split.
    + right. exists pre, book, post. repeat split; try assumption.
      * unfold Library.find_book_by_id. apply first_with_id_some.
        now exists pre, post.
      * rewrite L, !length_app. simpl. lia.
Qed.

(** X11.  In a catalogue whose ids are distinct, once [delete_book] has run
    for an id, [find_book_by_id] finds no book under it. *)
Theorem delete_then_find (book_id : pyint) (self self' : Library.t)
  (U : Spec.unique_ids (Library.books self))
  (D : Library.delete_book book_id self = Ok self') :
  Library.find_book_by_id book_id self' = None.
Proof.
  unfold Library.find_book_by_id.
  destruct (delete_book_cases book_id self)
    as [(F & E) | (pre & book & post & L & Hid & Hpre & E)];
    rewrite E in D; injection D as <-; simpl.
  - exact F.
  - apply first_with_id_none. apply Forall_app. split; [assumption|].
    unfold Spec.unique_ids in U. rewrite L, map_app in U. simpl in U.
    apply NoDup_remove_2 in U. apply Forall_forall. intros x Hx E'.
    apply U. apply in_or_app. right. rewrite Hid, <- E'. now apply in_map.
Qed.

Lemma delete_then_find_two_books :
  exists self',
    Library.delete_book (PInt 1) two_books = Ok self' /\
    Library.find_book_by_id (PInt 1) self' = None.
Proof.
  assert (U : Spec.unique_ids (Library.books two_books)).
  { unfold Spec.unique_ids. simpl.
    apply NoDup_cons; [intros [H|[]]; discriminate|].
    apply NoDup_cons; [intros []|]. apply NoDup_nil. }
  eexists. split; [reflexivity|].
  exact (delete_then_find (PInt 1) two_books _ U eq_refl).
Defined.

Lemma find_after_update (book_id : pyint) (new_status : string)
      (pre post : list Book.t) (book : Book.t) :
  Spec.id_of book = int_val book_id ->
  Forall (fun x => Spec.id_of x <> int_val book_id) pre ->
  Library.first_with_id book_id
    (pre ++ Book.set_status book new_status :: post) =
  Some (Book.set_status book new_status).
Proof.
  intros Hid Hpre. apply first_with_id_some. exists pre, post.
  repeat split; assumption.
Qed.

(** X12.  After [update_status] has run with a permitted status for the id
    of a book, [find_book_by_id] returns that book with the new status and
    its other four fields as they were. *)
Theorem update_then_find (book_id : pyint) (new_status : string)
        (self : Library.t) (book : Book.t)
  (F : Library.find_book_by_id book_id self = Some book)
  (P : Spec.permitted new_status) :
  Library.find_book_by_id book_id
    (Library.update_status book_id new_status self) =
  Some (Book.mk (Book.id book) (Book.title book) (Book.author book)
                (Book.year book) new_status).
Proof.
  destruct (update_status_cases book_id new_status self)
    as [(F' & _) | [(b & _ & P' & _) | (pre & b & post & L & Hid & Hpre & _ & ->)]].
  - congruence.
  - contradiction.
  - assert (E : Library.find_book_by_id book_id self = Some b).
    { unfold Library.find_book_by_id. apply first_with_id_some.
      now exists pre, post. }
    rewrite F in E. injection E as <-.
    unfold Library.find_book_by_id. simpl. now apply find_after_update.
Qed.

Lemma update_then_find_two_books :
  Library.find_book_by_id (PInt 2)
    (Library.update_status (PInt 2) "выдана" two_books) =
  Some (Book.mk (PInt 2) "Title 2" "Author 2" (PInt 2023) "выдана").
Proof.
  exact (update_then_find (PInt 2) "выдана" two_books
           (Book.mk (PInt 2) "Title 2" "Author 2" (PInt 2023) "в наличии")
           eq_refl (or_intror eq_refl)).
Defined.

(** X13.  [update_status] is idempotent on the catalogue: running it a second
    time with the same id and status changes neither the list nor the file;
    only the message is printed again. *)
Theorem update_status_twice (book_id : pyint) (new_status : string)
        (self : Library.t) :
  let once := Library.update_status book_id new_status self in
  let twice := Library.update_status book_id new_status once in
  Library.books twice = Library.books once /\
  Library.data_file twice = Library.data_file once /\
  exists text, Library.stdout twice = Library.stdout once ++ [Library.Text text].
Proof.
  intros once twice. subst twice once.
  destruct (update_status_cases book_id new_status self)
    as [(F & E) | [(b & F & P & E) | (pre & b & post & L & Hid & Hpre & P & E)]];
    rewrite E; clear E.
  - assert (T : forall l,
               Library.update_status book_id new_status (Library.print l self) =
               Library.print (Library.Text (Library.msg_not_found book_id))
                             (Library.print l self)).
    { intros l. unfold Library.update_status.
      change (Library.find_book_by_id book_id (Library.print l self))
        with (Library.find_book_by_id book_id self).
      now rewrite F. }
    rewrite T. simpl. repeat split. now eexists.
  - assert (X : existsb (String.eqb new_status)
                        [Book.available; Book.checked_out] = false).
    { destruct (existsb _ _) eqn:X; [|reflexivity].
      elim P. now apply permitted_existsb. }
    assert (T : forall l,
               Library.update_status book_id new_status (Library.print l self) =
               Library.print (Library.Text Library.msg_bad_status)
                             (Library.print l self)).
    { intros l. unfold Library.update_status.
      change (Library.find_book_by_id book_id (Library.print l self))
        with (Library.find_book_by_id book_id self).
      now rewrite F, X. }
    rewrite T. simpl. repeat split. now eexists.
  - set (b' := Book.set_status b new_status).
    set (once := Library.print
                   (Library.Text (Library.msg_status_changed book_id new_status))
                   (Library._save_books
                      (Library.set_books (pre ++ b' :: post) self))).
    apply permitted_existsb in P. unfold Book.valid_statuses in P.
    assert (T : Library.update_status book_id new_status once =
                Library.print
                  (Library.Text (Library.msg_status_changed book_id new_status))
                  (Library._save_books
                     (Library.set_books (pre ++ b' :: post) once))).
    { unfold Library.update_status, Library.find_book_by_id.
      change (Library.books once) with (pre ++ b' :: post). subst b'.
      rewrite (find_after_update book_id new_status pre post b Hid Hpre), P.
      rewrite assign_status_at; [reflexivity|].
      now apply (before_differs book_id). }
    rewrite T. simpl. repeat split. now eexists.
Qed.

(** ** Library: the file follows the list *)

Lemma step_store (c : Library.call) (self self' : Library.t)
      (r : option Book.t) :
  Library.step c self = Ok (r, self') ->
  (Library.books self' = Library.books self /\
   Library.data_file self' = Library.data_file self) \/
  saved self'.
Proof.
  destruct c as [title author year | book_id | book_id new_status]; simpl.
  - intros [= <- <-]. right. reflexivity.
  - destruct (delete_book_cases book_id self)
      as [(_ & ->) | (pre & book & post & _ & _ & _ & ->)]; simpl;
      intros [= <- <-].
    + left. now split.
    + right. reflexivity.
  - intros [= <- <-].
    destruct (update_status_cases book_id new_status self)
      as [(_ & ->) | [(book & _ & _ & ->) | (pre & book & post & _ & _ & _ & _ & ->)]].
    + left. now split.
    + left. now split.
    + right. reflexivity.
Qed.

Lemma step_accepted (c : Library.call) (self self' : Library.t)
      (r : option Book.t) :
  Library.step c self = Ok (r, self') ->
  Forall Spec.accepted (Library.books self) ->
  Forall Spec.accepted (Library.books self').
Proof.
  intros S A. destruct (step_change c self) as (r0 & s0 & S0 & C).
  rewrite S in S0. injection S0 as <- <-.
  now apply (change_accepted self r).
Qed.

Lemma saved_reloads (self : Library.t) :
  saved self -> Forall Spec.accepted (Library.books self) -> reloads self.
Proof.
  intros S A. exists []. rewrite S. simpl.
  now apply (load_loop_saved _ [] []).
Qed.

Lemma run_reloads (calls : list Library.call) (self self' : Library.t)
      (ids : list pyint) :
  Library.run calls self = Ok (ids, self') ->
  Forall Spec.accepted (Library.books self) -> reloads self ->
  Forall Spec.accepted (Library.books self') /\ reloads self'.
Proof.
  revert self ids. induction calls as [|c calls IH]; intros self ids; simpl.
  - intros [= <- <-]. now split.
  - destruct (Library.step c self) as [[r s1]|e|] eqn:S; try discriminate.
    simpl. destruct (Library.run calls s1) as [[ids1 s2]|e|] eqn:R;
      try discriminate.
    simpl. intros [= <- <-] A L.
    pose proof (step_accepted c self s1 r S A) as A1.
    apply (IH s1 ids1 R A1).
    destruct (step_store c self s1 r S) as [[Eb Ef] | Sv].
    + destruct L as [diag L]. exists diag. now rewrite Eb, Ef.
    + now apply saved_reloads.
Qed.


(** X15.  A Library built on a file and taken through any sequence of
    [add_book], [delete_book] and [update_status] calls can be built again
    from the file it leaves: the fresh Library holds the same books in the
    same order. *)
Theorem restart (file : Library.backend) (out : list Library.line)
        (calls : list Library.call) (self self' : Library.t)
        (ids : list pyint)
  (I : Library.__init__ file out = Ok self)
  (R : Library.run calls self = Ok (ids, self')) :
  exists diag,
    forall out',
      Library.__init__ (Library.data_file self') out' =
      Ok (Library.mk (Library.books self') (Library.data_file self')
                     (out' ++ diag)).
Proof.
  unfold Library.__init__ in I.
  destruct (Library.load_books file) as [[books diag0]|e|] eqn:L;
    try discriminate.
  simpl in I. injection I as <-.
  destruct (run_reloads calls _ self' ids R) as [_ [diag D]].
  - simpl. now apply (load_books_accepted file books diag0).
  - exists diag0. exact L.
  - exists diag. intros out'. unfold Library.__init__. now rewrite D.
Qed.

Lemma restart_after_skipped_entry :
  exists self self' diag,
    Library.__init__
      (Library.Document
         (JList [JDict [("id", JInt 1); ("title", JStr "Valid Book");
                        ("author", JStr "a3"); ("year", JInt 2003);
                        ("status", JStr "в наличии")];
                 JDict [("id", JInt 2)]])) [] = Ok self /\
    Library.run [Library.UpdateStatus (PInt 1) "выдана";
                 Library.Add "Title 2" "Author 2" (PInt 2023);
                 Library.Delete (PInt 1)] self =
      Ok ([PInt 2], self') /\
    forall out',
      Library.__init__ (Library.data_file self') out' =
      Ok (Library.mk (Library.books self') (Library.data_file self')
                     (out' ++ diag)).
Proof.
  pose proof (fun self self' I R =>
    restart
      (Library.Document
         (JList [JDict [("id", JInt 1); ("title", JStr "Valid Book");
                        ("author", JStr "a3"); ("year", JInt 2003);
                        ("status", JStr "в наличии")];
                 JDict [("id", JInt 2)]])) []
      [Library.UpdateStatus (PInt 1) "выдана";
       Library.Add "Title 2" "Author 2" (PInt 2023);
       Library.Delete (PInt 1)] self self' [PInt 2] I R) as H.
  do 2 eexists.
  destruct (H _ _ eq_refl eq_refl) as [diag D].
  exists diag. split; [reflexivity|]. split; [reflexivity | exact D].
Defined.

(** ** Library: what is shown and what a search finds *)

(** X16.  [display_books] prints one line per book of the list it is given,
    in order, and changes neither the catalogue nor the file.  Given no list
    or an empty one it shows the whole catalogue instead, and
    "Библиотека пуста." when that is empty too. *)
Theorem display_books_shows (books : option (list Book.t))
        (self : Library.t) :
  Library.display_books books self =
  Library.mk (Library.books self) (Library.data_file self)
    (Library.stdout self ++
     match shown books self with
     | [] => [Library.Text Library.msg_empty]
     | b :: l =>
         map (fun book => Library.Text (Library.msg_book book)) (b :: l)
     end).
Proof.
  unfold Library.display_books.
  replace (Library.or_books books self) with (shown books self)
    by (now destruct books as [[|b l]|]).
  destruct (shown books self) as [|b l]; [reflexivity | apply display_lines].
Qed.

Lemma str_in_refl (s : string) : str_in s s = true.
Proof.
  apply str_in_substring. exists EmptyString, EmptyString. simpl.
  induction s as [|a s IH]; simpl; [reflexivity | now rewrite <- IH].
Qed.

(** X17.  Whatever [str.lower] does, every book of the catalogue is among
    the results of a search for its own title, for its own author, and for
    its own year written as text. *)
Theorem search_finds_own_fields (lower : string -> string)
        (self : Library.t) :
  Forall (fun book =>
            In book (Library.search_results lower (Book.title book) self) /\
            In book (Library.search_results lower (Book.author book) self) /\
            In book (Library.search_results lower (str (Book.year book)) self))
         (Library.books self).
Proof.
  apply Forall_forall. intros book Hin. unfold Library.search_results.
  repeat split; apply filter_In; (split; [assumption|]);
    unfold Library.matches.
  - now rewrite str_in_refl.
  - now rewrite str_in_refl, orb_true_r.
  - now rewrite String.eqb_refl, !orb_true_r.
Qed.

(** X18.  The empty keyword selects every book: the empty string occurs in
    every title, provided lower-casing the empty string gives the empty
    string. *)
Theorem search_empty_keyword (lower : string -> string) (self : Library.t)
  (H : lower "" = "") :
  Library.search_results lower "" self = Library.books self.
Proof.
  unfold Library.search_results.
  induction (Library.books self) as [|b l IH]; simpl; [reflexivity|].
  unfold Library.matches at 1. rewrite H.
  replace (str_in "" (lower (Book.title b))) with true
    by (now destruct (lower (Book.title b))).
  simpl. now rewrite IH.
Qed.

Lemma search_empty_keyword_two_books :
  Library.search_results ascii_lower "" two_books = Library.books two_books.
Proof. exact (search_empty_keyword ascii_lower two_books eq_refl). Defined.

(** ** main(): what holds of every pass through the menu *)

Section Respects.

Variable R : list string -> Library.t -> list string -> Library.t -> Prop.

Hypothesis R_refl : forall stdin library, R stdin library stdin library.
Hypothesis R_trans :
  forall s1 l1 s2 l2 s3 l3, R s1 l1 s2 l2 -> R s2 l2 s3 l3 -> R s1 l1 s3 l3.
Hypothesis R_print :
  forall stdin library l, R stdin library stdin (Library.print l library).
Hypothesis R_read :
  forall line stdin library, R (line :: stdin) library stdin library.

Lemma respects_ret {A : Type} (a : A) : respects R (Main.ret a).
Proof. intros stdin library r stdin' library' [= <- <- <-]. apply R_refl. Qed.

Lemma respects_stop {A : Type} (s : Main.signal) :
  respects R (@Main.stop A s).
Proof. intros stdin library r stdin' library' [= <- <- <-]. apply R_refl. Qed.

Lemma respects_bind_value {A B : Type} (c : Main.io A) (k : A -> Main.io B) :
  respects R c ->
  (forall a stdin library stdin' library',
     c stdin library = (inl a, stdin', library') -> respects R (k a)) ->
  respects R (Main.bind c k).
Proof.
  intros Hc Hk stdin library r stdin' library'. unfold Main.bind.
  destruct (c stdin library) as [[[a|s] stdin1] library1] eqn:C.
  - intros K. apply (R_trans _ _ stdin1 library1).
    + apply (Hc _ _ _ _ _ C).
    + apply (Hk a _ _ _ _ C _ _ _ _ _ K).
  - intros [= <- <- <-]. apply (Hc _ _ _ _ _ C).
Qed.

Lemma respects_bind {A B : Type} (c : Main.io A) (k : A -> Main.io B) :
  respects R c -> (forall a, respects R (k a)) -> respects R (Main.bind c k).
Proof. intros Hc Hk. apply respects_bind_value; [assumption|]. intros; apply Hk. Qed.

Lemma respects_print (text : string) : respects R (Main.print text).
Proof. intros stdin library r stdin' library' [= <- <- <-]. apply R_print. Qed.

Lemma respects_input (prompt : string) : respects R (Main.input prompt).
Proof.
  intros stdin library r stdin' library'. unfold Main.input.
  destruct stdin as [|line stdin]; intros [= <- <- <-].
  - apply R_print.
  - apply (R_trans _ _ (line :: stdin) (Library.print (Library.Text prompt) library)).
    + apply R_print.
    + apply R_read.
Qed.

Lemma respects_ask {A : Type} (method : Library.t -> A) :
  respects R (Main.ask method).
Proof. intros stdin library r stdin' library' [= <- <- <-]. apply R_refl. Qed.

Lemma respects_call (method : Library.t -> Library.t) :
  (forall stdin library, R stdin library stdin (method library)) ->
  respects R (Main.call method).
Proof. intros H stdin library r stdin' library' [= <- <- <-]. apply H. Qed.

Lemma respects_call_result (method : Library.t -> result Library.t) :
  (forall stdin library library',
     method library = Ok library' -> R stdin library stdin library') ->
  respects R (Main.call_result method).
Proof.
  intros H stdin library r stdin' library'. unfold Main.call_result.
  destruct (method library) as [l|e|] eqn:M; intros [= <- <- <-].
  - now apply H.
  - apply R_refl.
  - apply R_refl.
Qed.

Lemma respects_try (body handler : Main.io unit) :
  respects R body -> respects R handler ->
  respects R (Main.try_except_ValueError body handler).
Proof.
  intros Hb Hh stdin library r stdin' library'.
  unfold Main.try_except_ValueError.
  destruct (body stdin library) as [[[u|s] stdin1] library1] eqn:B.
  - intros [= <- <- <-]. apply (Hb _ _ _ _ _ B).
  - destruct s as [| |e| |]; try (intros [= <- <- <-]; apply (Hb _ _ _ _ _ B)).
    destruct e; try (intros [= <- <- <-]; apply (Hb _ _ _ _ _ B)).
    intros K. apply (R_trans _ _ stdin1 library1).
    + apply (Hb _ _ _ _ _ B).
    + apply (Hh _ _ _ _ _ K).
Qed.

Variable lower : string -> string.
Variable int : string -> option Z.

Hypothesis R_add :
  forall title author year stdin library,
    R stdin library stdin (snd (Library.add_book title author year library)).
Hypothesis R_delete :
  forall book_id stdin library library',
    Library.delete_book book_id library = Ok library' ->
    R stdin library stdin library'.
Hypothesis R_update :
  forall book_id new_status stdin library,
    Spec.permitted new_status ->
    R stdin library stdin (Library.update_status book_id new_status library).
Hypothesis R_search :
  forall keyword stdin library,
    R stdin library stdin (Library.search_books lower keyword library).
Hypothesis R_display :
  forall stdin library,
    R stdin library stdin (Library.display_books None library).

Lemma respects_to_int (s : string) : respects R (Main.to_int int s).
Proof.
  unfold Main.to_int. destruct (int s); [apply respects_ret | apply respects_stop].
Qed.

Ltac respect :=
  repeat first
    [ apply respects_bind; [|intros ?]
    | apply respects_print
    | apply respects_input
    | apply respects_to_int
    | apply respects_ask
    | apply respects_ret
    | apply respects_stop ].

(** The status the menu passes on is one of the two it offers. *)
Lemma chosen_status (status_choice : pyint) (new_status : string)
      (stdin stdin' : list string) (library library' : Library.t) :
  (if int_eqb status_choice (PInt 1) then Main.ret "в наличии"
   else if int_eqb status_choice (PInt 2) then Main.ret "выдана"
   else Main.bind (Main.print "Ошибка: некорректный выбор статуса.")
                  (fun _ => Main.stop Main.Continue)) stdin library =
  (inl new_status, stdin', library') ->
  Spec.permitted new_status.
Proof.
  destruct (int_eqb status_choice (PInt 1)).
  - intros [= <- _ _]. now left.
  - destruct (int_eqb status_choice (PInt 2)).
    + intros [= <- _ _]. now right.
    + discriminate.
Qed.

Lemma respects_change_status : respects R (Main.change_status int).
Proof.
  unfold Main.change_status. respect.
  destruct a as [[|b l]|]; respect.
  apply respects_try; respect.
  destruct a1 as [book|]; [|respect].
  do 3 (apply respects_bind; [apply respects_print | intros _]).
  apply respects_bind; [apply respects_input | intros s].
  apply respects_bind; [apply respects_to_int | intros status_choice].
  apply respects_bind_value.
  - destruct (int_eqb status_choice (PInt 1)); respect.
    destruct (int_eqb status_choice (PInt 2)); respect.
  - intros new_status stdin library stdin' library' C.
    apply respects_bind; [|intros _; apply respects_print].
    apply respects_call. intros stdin0 library0. apply R_update.
    exact (chosen_status _ _ _ _ _ _ C).
Qed.

Lemma respects_dispatch (choice : string) :
  respects R (Main.dispatch lower int choice).
Proof.
  unfold Main.dispatch.
  destruct (String.eqb choice "1").
  { respect. apply respects_call. intros. apply R_add. }
  destruct (String.eqb choice "2").
  { respect. apply respects_call_result. intros. now apply (R_delete a0). }
  destruct (String.eqb choice "3").
  { respect. apply respects_call. intros. apply R_search. }
  destruct (String.eqb choice "4").
  { apply respects_call. intros. apply R_display. }
  destruct (String.eqb choice "5").
  { apply respects_change_status. }
  destruct (String.eqb choice "6"); respect.
Qed.

Lemma respects_turn : respects R (Main.turn lower int).
Proof. unfold Main.turn, Main.menu. respect. apply respects_dispatch. Qed.

Lemma respects_loop (fuel : nat) (stdin stdin' : list string)
      (library library' : Library.t) (s : Main.signal) :
  Main.loop lower int fuel stdin library = (s, stdin', library') ->
  R stdin library stdin' library'.
Proof.
  revert stdin library. induction fuel as [|fuel IH]; intros stdin library;
    simpl.
  - intros [= <- <- <-]. apply R_refl.
  - destruct (Main.turn lower int stdin library)
      as [[[u|sig] stdin1] library1] eqn:T.
    + intros L. apply (R_trans _ _ stdin1 library1);
        [apply (respects_turn _ _ _ _ _ T) | now apply IH].
    + destruct sig; try (intros [= <- <- <-]; apply (respects_turn _ _ _ _ _ T)).
      intros L. apply (R_trans _ _ stdin1 library1);
        [apply (respects_turn _ _ _ _ _ T) | now apply IH].
Qed.

End Respects.

(** ** main(): reading, stopping, and acting through Library only *)

Lemma rest_of_refl (stdin : list string) : rest_of stdin stdin.
Proof. now exists []. Qed.

Lemma rest_of_trans (s1 s2 s3 : list string) :
  rest_of s1 s2 -> rest_of s2 s3 -> rest_of s1 s3.
Proof.
  intros [r1 ->] [r2 ->]. exists (r1 ++ r2). now rewrite app_assoc.
Qed.

Lemma dispatch_rest (lower : string -> string) (int : string -> option Z)
      (choice : string) :
  respects (fun stdin _ stdin' _ => rest_of stdin stdin')
           (Main.dispatch lower int choice).
Proof.
  apply respects_dispatch; intros; try apply rest_of_refl.
  - eapply rest_of_trans; eassumption.
  - now exists [line].
Qed.

(** A pass either finds standard input at its end when it asks for the
    choice, or reads at least that line. *)
Lemma turn_consumes (lower : string -> string) (int : string -> option Z)
      (stdin stdin' : list string) (library library' : Library.t)
      (r : unit + Main.signal) :
  Main.turn lower int stdin library = (r, stdin', library') ->
  (stdin = [] /\ r = inr Main.EOFError) \/
  (exists line read, stdin = line :: read ++ stdin').
Proof.
  cbv [Main.turn Main.menu Main.bind Main.print Main.input].
  destruct stdin as [|line stdin].
  - intros [= <- _ _]. now left.
  - intros D. right. destruct (dispatch_rest lower int line _ _ _ _ _ D)
      as [read ->]. now exists line, read.
Qed.

Lemma loop_ends (lower : string -> string) (int : string -> option Z)
      (fuel : nat) (stdin : list string) (library : Library.t) :
  (List.length stdin < fuel)%nat ->
  fst (fst (Main.loop lower int fuel stdin library)) <> Main.Continue.
Proof.
  revert stdin library. induction fuel as [|fuel IH]; intros stdin library H;
    [lia|]. cbn [Main.loop].
  destruct (Main.turn lower int stdin library)
    as [[[u|sig] stdin1] library1] eqn:T.
  - destruct (turn_consumes _ _ _ _ _ _ _ T) as [[_ E] | (line & read & ->)];
      [discriminate|].
    apply IH. simpl in H. rewrite length_app in H. lia.
  - destruct sig; try (simpl; discriminate).
    destruct (turn_consumes _ _ _ _ _ _ _ T) as [[_ E] | (line & read & ->)];
      [discriminate|].
    apply IH. simpl in H. rewrite length_app in H. lia.
Qed.

(** With fuel beyond the number of lines the result does not depend on the
    fuel. *)
Lemma loop_fuel (lower : string -> string) (int : string -> option Z)
      (n m : nat) (stdin : list string) (library : Library.t) :
  (List.length stdin < n)%nat -> (List.length stdin < m)%nat ->
  Main.loop lower int n stdin library = Main.loop lower int m stdin library.
Proof.
  revert m stdin library. induction n as [|n IH]; intros m stdin library Hn Hm;
    [lia|]. destruct m as [|m]; [lia|]. cbn [Main.loop].
  destruct (Main.turn lower int stdin library)
    as [[[u|sig] stdin1] library1] eqn:T.
  - destruct (turn_consumes _ _ _ _ _ _ _ T) as [[_ E] | (line & read & ->)];
      [discriminate|].
    simpl in Hn, Hm. rewrite length_app in Hn, Hm. apply IH; lia.
  - destruct sig; try reflexivity.
    destruct (turn_consumes _ _ _ _ _ _ _ T) as [[_ E] | (line & read & ->)];
      [discriminate|].
    simpl in Hn, Hm. rewrite length_app in Hn, Hm. apply IH; lia.
Qed.

(** X19.  On every finite standard input the menu loop comes to an end: one
    pass more than there are lines is enough, since every pass that does not
    end the loop reads a line.  The lines left unread are a tail of the
    input. *)
Theorem main_loop_stops (lower : string -> string) (int : string -> option Z)
        (stdin : list string) (library : Library.t) :
  exists s read unread library',
    Main.main_loop lower int stdin library = (s, unread, library') /\
    s <> Main.Continue /\
    stdin = read ++ unread.
Proof.
  unfold Main.main_loop.
  pose proof (loop_ends lower int (S (List.length stdin)) stdin library
                        (Nat.lt_succ_diag_r _)) as E.
  destruct (Main.loop lower int (S (List.length stdin)) stdin library)
    as [[s unread] library'] eqn:L.
  assert (T : rest_of stdin unread).
  { apply (respects_loop (fun stdin _ stdin' _ => rest_of stdin stdin'))
      with (lower := lower) (int := int) (fuel := S (List.length stdin))
           (library := library) (library' := library') (s := s);
      intros; try apply rest_of_refl; try assumption.
    - eapply rest_of_trans; eassumption.
    - now exists [line]. }
  destruct T as [read T]. exists s, read, unread, library'.
  repeat split; assumption.
Qed.

Lemma same_store_refl (a : Library.t) : same_store a a.
Proof. now split. Qed.

Lemma same_store_trans (a b c : Library.t) :
  same_store a b -> same_store b c -> same_store a c.
Proof. intros [H1 H2] [H3 H4]. split; congruence. Qed.

Lemma step_same_store (c : Library.call) (a b a' : Library.t)
      (r : option Book.t) :
  same_store a b -> Library.step c a = Ok (r, a') ->
  exists b', Library.step c b = Ok (r, b') /\ same_store a' b'.
Proof.
  destruct a as [bs f oa], b as [bs' f' ob]. unfold same_store. simpl.
  intros [<- <-].
  destruct c as [title author year | book_id | book_id new_status]; simpl.
  - intros [= <- <-]. eexists. split; [reflexivity|]. now split.
  - unfold Library.delete_book, Library.find_book_by_id. simpl.
    destruct (Library.first_with_id book_id bs) as [book|]; simpl.
    + destruct (list_remove Book.eqb book bs) as [l|e|]; simpl;
        try discriminate.
      intros [= <- <-]. eexists. split; [reflexivity|]. now split.
    + intros [= <- <-]. eexists. split; [reflexivity|]. now split.
  - unfold Library.update_status, Library.find_book_by_id. simpl.
    intros [= <- <-]. eexists. split; [reflexivity|].
    destruct (Library.first_with_id book_id bs) as [book|]; simpl;
      [|now split].
    destruct (_ || _); now split.
Qed.

Lemma run_same_store (calls : list Library.call) (a b a' : Library.t)
      (ids : list pyint) :
  same_store a b -> Library.run calls a = Ok (ids, a') ->
  exists b', Library.run calls b = Ok (ids, b') /\ same_store a' b'.
Proof.
  revert a b a' ids. induction calls as [|c calls IH]; intros a b a' ids S;
    simpl.
  - intros [= <- <-]. now exists b.
  - destruct (Library.step c a) as [[r a1]|e|] eqn:Sa; try discriminate.
    destruct (step_same_store c a b a1 r S Sa) as (b1 & -> & S1). simpl.
    destruct (Library.run calls a1) as [[ids1 a2]|e|] eqn:Ra; try discriminate.
    destruct (IH a1 b1 a2 ids1 S1 Ra) as (b2 & -> & S2). simpl.
    intros [= <- <-]. now exists b2.
Qed.

Lemma run_app (c1 c2 : list Library.call) (a a1 a2 : Library.t)
      (ids1 ids2 : list pyint) :
  Library.run c1 a = Ok (ids1, a1) -> Library.run c2 a1 = Ok (ids2, a2) ->
  Library.run (c1 ++ c2) a = Ok (ids1 ++ ids2, a2).
Proof.
  revert a ids1. induction c1 as [|c c1 IH]; intros a ids1; simpl.
  - intros [= <- <-]. trivial.
  - destruct (Library.step c a) as [[r s1]|e|]; try discriminate. simpl.
    destruct (Library.run c1 s1) as [[ids s2]|e|] eqn:R1; try discriminate.
    simpl. intros [= <- <-] R2. rewrite (IH s1 ids R1 R2). simpl.
    now destruct r.
Qed.

Lemma reaches_refl (a : Library.t) : reaches a a.
Proof.
  exists [], [], a. split; [constructor|]. split; [reflexivity|].
  apply same_store_refl.
Qed.

Lemma reaches_same (a b : Library.t) : same_store a b -> reaches a b.
Proof.
  intros S. exists [], [], a. split; [constructor|]. now split.
Qed.

Lemma reaches_trans (a b c : Library.t) :
  reaches a b -> reaches b c -> reaches a c.
Proof.
  intros (c1 & ids1 & a1 & M1 & R1 & S1) (c2 & ids2 & b2 & M2 & R2 & S2).
  destruct (run_same_store c2 b a1 b2 ids2) as (a2 & R2' & S2');
    [split; symmetry; apply S1 | assumption |].
  exists (c1 ++ c2), (ids1 ++ ids2), a2. split; [|split].
  - apply Forall_app. now split.
  - now apply (run_app c1 c2 a a1).
  - apply (same_store_trans a2 b2 c); [|assumption].
    destruct S2' as [H1 H2]. split; congruence.
Qed.

Lemma display_books_store (books : option (list Book.t)) (self : Library.t) :
  same_store self (Library.display_books books self).
Proof.
  unfold Library.display_books.
  destruct (Library.or_books books self) as [|b l]; [now split|].
  rewrite display_lines. now split.
Qed.

Lemma search_books_store (lower : string -> string) (keyword : string)
      (self : Library.t) :
  same_store self (Library.search_books lower keyword self).
Proof.
  unfold Library.search_books.
  destruct (Library.search_results lower keyword self) as [|b l];
    [now split | apply display_books_store].
Qed.

Lemma loop_reaches (lower : string -> string) (int : string -> option Z)
      (fuel : nat) (stdin stdin' : list string)
      (library library' : Library.t) (s : Main.signal) :
  Main.loop lower int fuel stdin library = (s, stdin', library') ->
  reaches library library'.
Proof.
  apply (respects_loop (fun _ library _ library' => reaches library library')).
  - intros. apply reaches_refl.
  - intros. eapply reaches_trans; eassumption.
  - intros. apply reaches_same. now split.
  - intros. apply reaches_refl.
  - intros title author year _ l.
    exists [Library.Add title author year],
           [Book.id (fst (Library.add_book title author year l))],
           (snd (Library.add_book title author year l)).
    split; [repeat constructor|]. split; [reflexivity | apply same_store_refl].
  - intros book_id _ l l' D.
    exists [Library.Delete book_id], [], l'.
    split; [repeat constructor|]. split; [|apply same_store_refl].
    simpl. now rewrite D.
  - intros book_id new_status _ l P.
    exists [Library.UpdateStatus book_id new_status], [],
           (Library.update_status book_id new_status l).
    split; [apply Forall_cons; [exact P | apply Forall_nil]|].
    split; [reflexivity | apply same_store_refl].
  - intros. apply reaches_same. apply search_books_store.
  - intros. apply reaches_same. apply display_books_store.
Qed.

(** X20.  Whatever is typed, [main] changes the list of books and the file
    only through [add_book], [delete_book] and [update_status]: what the
    menu loop leaves is what some sequence of these calls gives, and in it
    [update_status] is only ever called with "в наличии" or "выдана". *)
Theorem main_through_library (lower : string -> string)
        (int : string -> option Z) (stdin : list string)
        (library : Library.t) :
  exists calls ids after,
    Forall menu_call calls /\
    Library.run calls library = Ok (ids, after) /\
    Library.books after =
      Library.books (snd (Main.main_loop lower int stdin library)) /\
    Library.data_file after =
      Library.data_file (snd (Main.main_loop lower int stdin library)).
Proof.
  destruct (Main.main_loop lower int stdin library)
    as [[s unread] library'] eqn:L.
  destruct (loop_reaches _ _ _ _ _ _ _ _ L)
    as (calls & ids & after & M & R & S1 & S2).
  exists calls, ids, after. repeat split; assumption.
Qed.

(** The loop, one pass unrolled. *)
Lemma main_loop_step (lower : string -> string) (int : string -> option Z)
      (stdin stdin' : list string) (library library' : Library.t)
      (r : unit + Main.signal) :
  Main.turn lower int stdin library = (r, stdin', library') ->
  Main.main_loop lower int stdin library =
  match r with
  | inl _ | inr Main.Continue => Main.main_loop lower int stdin' library'
  | inr s => (s, stdin', library')
  end.
Proof.
  intros T. unfold Main.main_loop at 1. cbn [Main.loop]. rewrite T.
  destruct (turn_consumes _ _ _ _ _ _ _ T) as [[-> ->] | (line & read & ->)];
    [reflexivity|].
  assert (F : Main.loop lower int
                (List.length (line :: read ++ stdin')) stdin' library' =
              Main.main_loop lower int stdin' library').
  { apply loop_fuel; simpl; rewrite ?length_app; lia. }
  destruct r as [u|[]]; try reflexivity; exact F.
Qed.

(** X22.  A line that [int] rejects ends the program when it is typed as
    the year of a new book or as the id of a book to delete: the
    [ValueError] is not caught, the lines after it stay unread, and list and
    file are as they were.  Typed as the id of a book to re-status, in a
    catalogue that holds a book, it is caught: the error message is printed
    and the menu comes up again. *)
Theorem menu_bad_number (lower : string -> string) (int : string -> option Z)
        (s : string) (rest : list string) (library : Library.t)
  (H : int s = None) :
  (forall title author,
     exists library',
       Main.main_loop lower int ("1" :: title :: author :: s :: rest) library =
         (Main.Raised ValueError, rest, library') /\
       same_store library library') /\
  (exists library',
     Main.main_loop lower int ("2" :: s :: rest) library =
       (Main.Raised ValueError, rest, library') /\
     same_store library library') /\
  (Library.books library <> [] ->
   exists library' out,
     Main.main_loop lower int ("5" :: s :: rest) library =
       Main.main_loop lower int rest library' /\
     same_store library library' /\
     Library.stdout library' =
       out ++ [Library.Text
                 "Ошибка: некорректный ввод. Убедитесь, что вводите числа."]).
Proof.
  split; [|split].
  - intros title author.
    assert (T : exists library',
               Main.turn lower int ("1" :: title :: author :: s :: rest)
                         library =
                 (inr (Main.Raised ValueError), rest, library') /\
               same_store library library').
    { unfold Main.turn, Main.menu, Main.dispatch, Main.to_int, Main.bind,
        Main.print, Main.input. simpl.
      rewrite H. eexists. split; [reflexivity | now split]. }
    destruct T as (library' & T & S). exists library'.
    now rewrite (main_loop_step _ _ _ _ _ _ _ T).
  - assert (T : exists library',
               Main.turn lower int ("2" :: s :: rest) library =
                 (inr (Main.Raised ValueError), rest, library') /\
               same_store library library').
    { unfold Main.turn, Main.menu, Main.dispatch, Main.to_int, Main.bind,
        Main.print, Main.input. simpl.
      rewrite H. eexists. split; [reflexivity | now split]. }
    destruct T as (library' & T & S). exists library'.
    now rewrite (main_loop_step _ _ _ _ _ _ _ T).
  - intros N. destruct library as [[|b bs] f out]; [now elim N|].
    assert (T : exists library' out',
               Main.turn lower int ("5" :: s :: rest)
                         (Library.mk (b :: bs) f out) =
                 (inl tt, rest, library') /\
               same_store (Library.mk (b :: bs) f out) library' /\
               Library.stdout library' =
                 out' ++
                 [Library.Text
                    "Ошибка: некорректный ввод. Убедитесь, что вводите числа."]).
    { unfold Main.turn, Main.menu, Main.dispatch, Main.change_status,
        Main.to_int, Main.try_except_ValueError, Main.bind, Main.print,
        Main.input, Main.ask. simpl.
      rewrite H. simpl. do 2 eexists.
      split; [reflexivity|]. split; [now split | reflexivity]. }
    destruct T as (library' & out' & T & S & O). exists library', out'.
    now rewrite (main_loop_step _ _ _ _ _ _ _ T).
Qed.

Lemma menu_bad_number_in_words :
  exists library' library'',
    Main.main_loop ascii_lower Main.decimal_int
      ["1"; "Title 3"; "Author 3"; "two thousand"; "6"] two_books =
      (Main.Raised ValueError, ["6"], library') /\
    Main.main_loop ascii_lower Main.decimal_int
      ["5"; "two thousand"; "6"] two_books =
      Main.main_loop ascii_lower Main.decimal_int ["6"] library'' /\
    same_store two_books library''.
Proof.
  destruct (menu_bad_number ascii_lower Main.decimal_int "two thousand" ["6"]
                            two_books eq_refl) as (A & _ & C).
  destruct (A "Title 3" "Author 3") as (library' & A1 & _).
  destruct C as (library'' & out & C1 & C2 & _); [discriminate|].
  exists library', library''.
  split; [exact A1 | split; [exact C1 | exact C2]].
Defined.
